(** * skrl: the base [Agent] class and the Isaac Orbit example test

    A shallow embedding of [skrl/agents/base.py] and of
    [tests/test_examples_isaac_orbit.py].

    Python objects live in a heap and are passed by reference; a method is
    a computation in a state-and-exception monad over the interpreter
    state.  The collaborators that the two files only call (the models,
    [torch], [os.path]) are interfaces: the agent code is verified for
    every implementation of them.  The TensorBoard writer is what it
    keeps, its directory and its records, and what of the surroundings it
    depends on is read from the state. *)

From stdpp Require Import base option list strings gmap pretty.
From Stdlib Require Import ZArith Ascii String QArith Qminmax.

Close Scope Q_scope.
Local Open Scope string_scope.

(** ** Exceptions and results *)

Inductive exn :=
| NotImplementedError
| AttributeError
| TypeError
| KeyError (key : string)
| ImportError (msg : string)
| ModuleNotFoundError (msg : string)
| CalledProcessError (returncode : Z) (cmd : string)
| ValueError
| OSError (msg : string)
| CollaboratorError (cls : string).

Inductive result (A : Type) :=
| Ok (a : A)
| Raise (e : exn).
Arguments Ok {A} a.
Arguments Raise {A} e.

(** ** Values and objects *)

Definition loc := positive.

(** [torch.device("cuda")] and [torch.device("cpu")]. *)
Inductive device := cuda | cpu.

Inductive value :=
| VNone
| VBool (b : bool)
| VInt (z : Z)
| VStr (s : string)
| VDevice (d : device)
| VRef (l : loc).

#[global] Instance device_eq_dec : EqDecision device.
Proof. solve_decision. Defined.
#[global] Instance value_eq_dec : EqDecision value.
Proof. solve_decision. Defined.

(** A [dict] with string keys keeps its items in insertion order; a key
    occurs once. *)
Definition dict := list (string * value).

Fixpoint dict_lookup (d : dict) (k : string) : option value :=
  match d with
  | [] => None
  | (k', v) :: d' => if decide (k' = k) then Some v else dict_lookup d' k
  end.

Definition dict_keys (d : dict) : list string := d.*1.

(** ** Collaborator interfaces *)

(** [skrl.models.torch.Model]: the agent only calls [set_mode] on it. *)
Class Model (model : Type) := {
  model_set_mode : model → string → result model
}.

(** The part of [torch] that [record_transition] uses: the reductions
    [torch.max], [torch.min], [torch.mean] of a tensor to a 0-dimensional
    tensor, and [Tensor.item] reading the number out of it. *)
Class Torch (tensor scalar : Type) := {
  torch_max : tensor → result tensor;
  torch_min : tensor → result tensor;
  torch_mean : tensor → result tensor;
  tensor_item : tensor → result scalar
}.

(** [os.path.join] on two strings. *)
Class OsPath := {
  os_path_join : string → string → string
}.

(** [posixpath.join a b]. *)
Definition starts_with_sep (s : string) : bool :=
  match s with
  | String c _ => if decide (c = "/"%char) then true else false
  | EmptyString => false
  end.

Fixpoint ends_with_sep (s : string) : bool :=
  match s with
  | EmptyString => false
  | String c EmptyString => if decide (c = "/"%char) then true else false
  | String _ s' => ends_with_sep s'
  end.

Definition posixpath_join (path b : string) : string :=
  if starts_with_sep b then b
  else if decide (path = "") then path ++ b
  else if ends_with_sep path then path ++ b
  else path ++ "/" ++ b.

Definition posixpath : OsPath := {| os_path_join := posixpath_join |}.

(** [posixpath.dirname], [posixpath.normpath] and [posixpath.abspath], the
    last for a given working directory. *)

(** [s.split("/")] *)
Fixpoint split_sep (s : string) : list string :=
  match s with
  | EmptyString => [""]
  | String c s' =>
      if decide (c = "/"%char) then "" :: split_sep s'
      else match split_sep s' with
           | comp :: comps => String c comp :: comps
           | [] => [String c ""]
           end
  end.

(** ["/".join(comps)] *)
Fixpoint join_sep (comps : list string) : string :=
  match comps with
  | [] => ""
  | [comp] => comp
  | comp :: comps' => comp ++ "/" ++ join_sep comps'
  end.

(** [s.rstrip("/")] *)
Fixpoint rstrip_sep (s : string) : string :=
  match s with
  | EmptyString => ""
  | String c s' =>
      match rstrip_sep s' with
      | EmptyString => if decide (c = "/"%char) then "" else String c ""
      | t => String c t
      end
  end.

Definition posixpath_dirname (p : string) : string :=
  match reverse (split_sep p) with
  | [] | [_] => ""
  | _ :: rev_head =>
      let head := join_sep (reverse rev_head) ++ "/" in
      if decide (rstrip_sep head = "") then head else rstrip_sep head
  end.

Definition normpath_step (initial_slashes : nat) (new_comps : list string)
    (comp : string) : list string :=
  if decide (comp = "") then new_comps
  else if decide (comp = ".") then new_comps
  else if decide (comp ≠ ".."
                  ∨ (initial_slashes = 0%nat ∧ new_comps = [])
                  ∨ last new_comps = Some "..")
  then (new_comps ++ [comp])%list
  else removelast new_comps.

Definition posixpath_normpath (path : string) : string :=
  if decide (path = "") then "."
  else
    let initial_slashes :=
      match path with
      | String "/" (String "/" (String "/" _)) => 1%nat
      | String "/" (String "/" _) => 2%nat
      | String "/" _ => 1%nat
      | _ => 0%nat
      end in
    let comps := foldl (normpath_step initial_slashes) [] (split_sep path) in
    let path' := String.concat "" (replicate initial_slashes "/") ++ join_sep comps in
    if decide (path' = "") then "." else path'.

Definition posixpath_abspath (cwd path : string) : string :=
  posixpath_normpath
    (if starts_with_sep path then path else posixpath_join cwd path).


(** * [tests/test_examples_isaac_orbit.py] *)

Definition PYTHON_ENVIRONMENT : string := "orbit -p".
Definition EXAMPLE_DIR : string := "isaacorbit".
Definition SCRIPTS : list string := ["ppo_cartpole.py"].

(** What the test does to its surroundings. *)
Inductive test_event :=
| SubprocessRun (command : string) (shell check : bool)
| WarningsWarn (message : string).

Record test_world := {
  (** what [from omni.isaac.kit import SimulationApp] does: nothing to
      report when the import goes through, or the exception it raises *)
  import_omni_isaac_kit : option exn;
  (** the exit status with which the shell runs a command *)
  returncode_of : string → Z;
  (** the subprocesses and warnings so far, oldest first *)
  emitted : list test_event
}.

Definition emit (ev : test_event) (w : test_world) : test_world :=
  {| import_omni_isaac_kit := import_omni_isaac_kit w;
     returncode_of := returncode_of w;
     emitted := emitted w ++ [ev] |}.

(** [except ImportError as e]: whether the clause catches the exception,
    an [ImportError] or one of its subclass [ModuleNotFoundError], and then
    [str(e)], its message. *)
Definition as_ImportError (e : exn) : option string :=
  match e with
  | ImportError msg | ModuleNotFoundError msg => Some msg
  | _ => None
  end.

Definition newline : string := String (ascii_of_nat 10) "".

(** The text of the warning, for the message [msg] of the exception. *)
Definition skip_message (msg : string) : string :=
  newline ++ newline ++ "Unable to import omni.isaac.kit (" ++ msg ++ ")."
  ++ newline ++ "This test will be skipped" ++ newline.

(** [subprocess.run(command, shell=True, check=True)] *)
Definition subprocess_run_shell_check (command : string) (w : test_world)
  : result unit * test_world :=
  let w1 := emit (SubprocessRun command true true) w in
  if decide (returncode_of w command = 0%Z)
  then (Ok tt, w1)
  else (Raise (CalledProcessError (returncode_of w command) command), w1).

Definition test_scripts (command : string) (w : test_world)
  : result value * test_world :=
  match import_omni_isaac_kit w with
  | Some e =>
      match as_ImportError e with
      | Some msg => (Ok VNone, emit (WarningsWarn (skip_message msg)) w)
      | None => (Raise e, w)
      end
  | None =>
      match subprocess_run_shell_check command w with
      | (Ok _, w') => (Ok VNone, w')
      | (Raise e, w') => (Raise e, w')
      end
  end.

Section TestExamples.

Context `{!OsPath}.
(** [os.path.abspath], [os.path.dirname] and the path of the test file. *)
Variables (os_path_abspath os_path_dirname : string → string) (__file__ : string).

Definition EXAMPLES_DIR : string :=
  os_path_abspath
    (os_path_join
       (os_path_join
          (os_path_join
             (os_path_join (os_path_dirname (os_path_abspath __file__)) "..")
             "docs")
          "source")
       "examples").

Definition COMMANDS : list string :=
  (λ script,
     PYTHON_ENVIRONMENT ++ " "
     ++ os_path_join (os_path_join EXAMPLES_DIR EXAMPLE_DIR) script
     ++ " --headless --num_envs 64") <$> SCRIPTS.

End TestExamples.

(** * [skrl/agents/base.py] *)

(** ** The interpreter state *)

Section Interp.

Context {model tensor scalar : Type}.
Context `{!Model model} `{!Torch tensor scalar} `{!OsPath}.

(** Modelled from the spec: the memory, [skrl.memories.Memory], is not
    among the two files; the glossary has it as "a store of past
    transitions", a transition being "a single (state, action, reward,
    next state, done-flag) tuple". *)
Record transition := {
  tr_states : tensor;
  tr_actions : tensor;
  tr_rewards : tensor;
  tr_next_states : tensor;
  tr_dones : tensor
}.

Inductive object :=
| ODict (items : dict)
| OInstance (cls : string) (attrs : gmap string value)
| OModel (m : model)
| OMemory (stored : list transition)
| OWriter (log_dir : string) (scalars : list (string * scalar * Z))
| OEnv.

(** Calls made on collaborators, oldest first. *)
Inductive event :=
| CallSetMode (target : loc) (mode : string).

Record world := {
  heap : gmap loc object;
  trace : list event;
  (** [torch.cuda.is_available()] *)
  cuda_is_available : bool;
  (** [os.getcwd()], which raises when there is no working directory *)
  getcwd : result string;
  (** [datetime.datetime.now().strftime("%y-%m-%d_%H-%M-%S")] *)
  now_strftime : string;
  (** the [{}] that is the default of [cfg], made once when [__init__] is
      defined *)
  default_cfg : loc;
  (** [datetime.now().strftime("%b%d_%H-%M-%S")] and [socket.gethostname()],
      of which a writer without a directory makes its own *)
  now_strftime_writer : string;
  gethostname : string;
  (** what making the directory and the event file of a writer over a
      directory does: nothing to report, or the exception it raises *)
  open_log_dir : string → option exn
}.

Definition set_heap (h : gmap loc object) (w : world) : world :=
  {| heap := h; trace := trace w; cuda_is_available := cuda_is_available w;
     getcwd := getcwd w; now_strftime := now_strftime w;
     default_cfg := default_cfg w;
     now_strftime_writer := now_strftime_writer w; gethostname := gethostname w;
     open_log_dir := open_log_dir w |}.

Definition set_trace (t : list event) (w : world) : world :=
  {| heap := heap w; trace := t; cuda_is_available := cuda_is_available w;
     getcwd := getcwd w; now_strftime := now_strftime w;
     default_cfg := default_cfg w;
     now_strftime_writer := now_strftime_writer w; gethostname := gethostname w;
     open_log_dir := open_log_dir w |}.

(** ** The monad of Python computations *)

Definition py (A : Type) : Type := world → result A * world.

#[local] Instance py_ret : MRet py := λ A a w, (Ok a, w).
#[local] Instance py_bind : MBind py := λ A B k m w,
  match m w with
  | (Ok a, w') => k a w'
  | (Raise e, w') => (Raise e, w')
  end.

Definition raise {A} (e : exn) : py A := λ w, (Raise e, w).
Definition lift {A} (r : result A) : py A := λ w, (r, w).

Fixpoint for_each {A} (xs : list A) (body : A → py unit) : py unit :=
  match xs with
  | [] => mret tt
  | x :: xs' => body x ;; for_each xs' body
  end.

(** *** Primitive operations *)

(** [o.name] *)
Definition getattr (o : value) (name : string) : py value :=
  λ w, match o with
       | VRef l =>
           match heap w !! l with
           | Some (OInstance _ attrs) =>
               match attrs !! name with
               | Some v => (Ok v, w)
               | None => (Raise AttributeError, w)
               end
           | _ => (Raise AttributeError, w)
           end
       | _ => (Raise AttributeError, w)
       end.

(** [o.name = v] *)
Definition setattr (o : value) (name : string) (v : value) : py unit :=
  λ w, match o with
       | VRef l =>
           match heap w !! l with
           | Some (OInstance cls attrs) =>
               (Ok tt, set_heap (<[l := OInstance cls (<[name := v]> attrs)]> (heap w)) w)
           | _ => (Raise AttributeError, w)
           end
       | _ => (Raise AttributeError, w)
       end.

(** [o.__class__.__name__] *)
Definition class_name (o : value) : py string :=
  λ w, match o with
       | VRef l =>
           match heap w !! l with
           | Some (OInstance cls _) => (Ok cls, w)
           | _ => (Raise AttributeError, w)
           end
       | _ => (Raise AttributeError, w)
       end.

(** The items of the dict that [d] refers to; [e] is what the operation
    at hand raises on a value that is not a dict. *)
Definition dict_items (e : exn) (d : value) : py dict :=
  λ w, match d with
       | VRef l =>
           match heap w !! l with
           | Some (ODict items) => (Ok items, w)
           | _ => (Raise e, w)
           end
       | _ => (Raise e, w)
       end.

(** [d.get(key, default)] *)
Definition dict_get (d : value) (key : string) (dflt : value) : py value :=
  items ← dict_items AttributeError d;
  mret (default dflt (dict_lookup items key)).

(** [d[key]] *)
Definition dict_getitem (d : value) (key : string) : py value :=
  items ← dict_items TypeError d;
  match dict_lookup items key with
  | Some v => mret v
  | None => raise (KeyError key)
  end.

(** The keys that [for k in d] visits, in order. *)
Definition dict_iter (d : value) : py (list string) :=
  items ← dict_items TypeError d;
  mret (dict_keys items).

(** A new object, at an address that is not in use. *)
Definition alloc (o : object) : py value :=
  λ w, let l := fresh (dom (heap w)) in
       (Ok (VRef l), set_heap (<[l := o]> (heap w)) w).

Definition torch_cuda_is_available : py bool := λ w, (Ok (cuda_is_available w), w).
Definition os_getcwd : py string := λ w, (getcwd w, w).
Definition datetime_now_strftime : py string := λ w, (Ok (now_strftime w), w).

(** The default of the parameter [cfg] of [__init__]. *)
Definition init_default_cfg : py value := λ w, (Ok (VRef (default_cfg w)), w).

(** [os.path.join(a, b)]: both components have to be strings. *)
Definition path_join (a b : value) : py value :=
  match a, b with
  | VStr x, VStr y => mret (VStr (os_path_join x y))
  | _, _ => raise TypeError
  end.

(** The directory of a writer made for the directory [d]: [d] itself, or
    for a [d] that is empty, [if not log_dir], the directory
    [os.path.join("runs", current_time + "_" + socket.gethostname())] of
    the writer's own. *)
Definition writer_log_dir (w : world) (d : string) : string :=
  if decide (d = "")
  then os_path_join "runs" (now_strftime_writer w ++ "_" ++ gethostname w)
  else d.

(** Making the directory and the event file of a writer. *)
Definition open_event_file (dir : string) : py unit :=
  λ w, match open_log_dir w dir with
       | Some e => (Raise e, w)
       | None => (Ok tt, w)
       end.

(** [SummaryWriter(log_dir=d)]: a new writer, with nothing written yet,
    over the directory that [writer_log_dir] gives, which has to be made
    first.  The [log_dir] that [__init__] passes is a string, the join of
    two strings; the model has no writer for anything else. *)
Definition SummaryWriter (log_dir : value) : py value :=
  match log_dir with
  | VStr d =>
      dir ← (λ w, (Ok (writer_log_dir w d), w));
      open_event_file dir ;;
      alloc (OWriter dir [])
  | _ => raise TypeError
  end.

(** [wr.add_scalar]: the method of a writer, bound to it. *)
Definition get_add_scalar (wr : value) : py loc :=
  λ w, match wr with
       | VRef l =>
           match heap w !! l with
           | Some (OWriter _ _) => (Ok l, w)
           | _ => (Raise AttributeError, w)
           end
       | _ => (Raise AttributeError, w)
       end.

(** The steps that a record can have: the event of a record keeps its
    step as a signed integer of 64 bits. *)
Definition int64 (z : Z) : Prop := (- 2 ^ 63 ≤ z < 2 ^ 63)%Z.

#[global] Instance int64_dec z : Decision (int64 z).
Proof. unfold int64. apply _. Defined.

(** The call [add_scalar(tag, x, step)] of that method: one more record in
    the writer at [l], or [ValueError], and nothing written, for a step
    that a record cannot have. *)
Definition add_scalar (l : loc) (tag : string) (x : scalar) (step : Z) : py unit :=
  λ w, match heap w !! l with
       | Some (OWriter d log) =>
           if decide (int64 step)
           then (Ok tt,
                 set_heap (<[l := OWriter d (log ++ [(tag, x, step)])]> (heap w)) w)
           else (Raise ValueError, w)
       | _ => (Raise AttributeError, w)
       end.

(** [m.set_mode(mode)] on a model: the call is recorded, then the model
    either takes its new state or raises. *)
Definition call_set_mode (m : value) (mode : string) : py unit :=
  λ w, match m with
       | VRef l =>
           match heap w !! l with
           | Some (OModel st) =>
               let w1 := set_trace (trace w ++ [CallSetMode l mode]) w in
               match model_set_mode st mode with
               | Ok st' => (Ok tt, set_heap (<[l := OModel st']> (heap w1)) w1)
               | Raise e => (Raise e, w1)
               end
           | _ => (Raise AttributeError, w)
           end
       | _ => (Raise AttributeError, w)
       end.

(** ** [class Agent] *)

Definition __init__ (self env networks memory cfg : value) : py unit :=
  setattr self "env" env ;;
  setattr self "networks" networks ;;
  setattr self "memory" memory ;;
  setattr self "cfg" cfg ;;
  c ← getattr self "cfg";
  d ← dict_get c "device" VNone;
  setattr self "device" d ;;
  d ← getattr self "device";
  (if decide (d = VNone) then
     avail ← torch_cuda_is_available;
     setattr self "device" (VDevice (if avail : bool then cuda else cpu))
   else mret tt) ;;
  c ← getattr self "cfg";
  cwd ← os_getcwd;
  runs ← path_join (VStr cwd) (VStr "runs");
  log_dir ← dict_get c "log_dir" runs;
  c ← getattr self "cfg";
  stamp ← datetime_now_strftime;
  cls ← class_name self;
  experiment_name ← dict_get c "experiment_name" (VStr (stamp ++ "_" ++ cls));
  dir ← path_join log_dir experiment_name;
  setattr self "experiment_dir" dir ;;
  dir ← getattr self "experiment_dir";
  wr ← SummaryWriter dir;
  setattr self "writer" wr.

(** The call [cls(env, networks, memory, cfg)] of the class [Agent] or of a
    class that inherits its [__init__]; [memory] and [cfg] may be left
    out. *)
Definition Agent (cls : string) (env networks : value) (memory cfg : option value)
  : py value :=
  self ← alloc (OInstance cls ∅);
  dflt ← init_default_cfg;
  __init__ self env networks (default VNone memory) (default dflt cfg) ;;
  mret self.

Definition act (self : value) (states : tensor) (inference : bool)
    (timestep timesteps : option Z) : py tensor :=
  raise NotImplementedError.

Definition record_transition (self : value)
    (states actions rewards next_states dones : tensor) (timestep timesteps : Z)
  : py value :=
  wr ← getattr self "writer";
  add ← get_add_scalar wr;
  t ← lift (torch_max rewards);
  x ← lift (tensor_item t);
  add_scalar add "Instantaneous reward/max" x timestep ;;
  wr ← getattr self "writer";
  add ← get_add_scalar wr;
  t ← lift (torch_min rewards);
  x ← lift (tensor_item t);
  add_scalar add "Instantaneous reward/min" x timestep ;;
  wr ← getattr self "writer";
  add ← get_add_scalar wr;
  t ← lift (torch_mean rewards);
  x ← lift (tensor_item t);
  add_scalar add "Instantaneous reward/mean" x timestep ;;
  mret VNone.

(** The loop runs over the keys that the dict has when the loop starts:
    a call of a model changes that model only, so the dict is the same
    throughout. *)
Definition set_mode (self : value) (mode : string) : py value :=
  nets ← getattr self "networks";
  ks ← dict_iter nets;
  for_each ks (λ k,
    nets ← getattr self "networks";
    m ← dict_getitem nets k;
    call_set_mode m mode) ;;
  mret VNone.

Definition pre_interaction (self : value) (timestep timesteps : Z) : py value :=
  mret VNone.

Definition post_interaction (self : value) (timestep timesteps : Z) : py value :=
  mret VNone.

(** *** [__str__] *)

(** [repr(v)] of a value and [str(o)] of an object, in a given heap, as
    the classes of the objects define them. *)
Variables (py_repr : gmap loc object → value → string)
          (py_str_object : gmap loc object → loc → string).

(** [str(v)], which is what ["{}".format(v)] puts in for [v]. *)
Definition str_value (h : gmap loc object) (v : value) : string :=
  match v with
  | VNone => "None"
  | VBool b => if b then "True" else "False"
  | VInt z => pretty z
  | VStr x => x
  | VDevice cuda => "cuda"
  | VDevice cpu => "cpu"
  | VRef l => py_str_object h l
  end.

Definition repr (v : value) : py string := λ w, (Ok (py_repr (heap w) v), w).
Definition format_value (v : value) : py string :=
  λ w, (Ok (str_value (heap w) v), w).

(** [type(v) is dict] *)
Definition type_is_dict (v : value) : py bool :=
  λ w, match v with
       | VRef l =>
           match heap w !! l with
           | Some (ODict _) => (Ok true, w)
           | _ => (Ok false, w)
           end
       | _ => (Ok false, w)
       end.

(** A loop over [xs] that updates the local variable [acc]. *)
Fixpoint fold_each {A S} (xs : list A) (acc : S) (body : S → A → py S) : py S :=
  match xs with
  | [] => mret acc
  | x :: xs' => acc' ← body acc x; fold_each xs' acc' body
  end.

Definition __str__ (self : value) : py string :=
  r ← repr self;
  let string := "Agent: " ++ r in
  c ← getattr self "cfg";
  items ← dict_items AttributeError c;
  fold_each items string (λ string kv,
    let '(k, v) := kv in
    isdict ← type_is_dict v;
    if isdict : bool then
      let string := string ++ newline ++ "  |-- " ++ k in
      sub ← dict_items AttributeError v;
      fold_each sub string (λ string kv1,
        let '(k1, v1) := kv1 in
        s1 ← format_value v1;
        mret (string ++ newline ++ "  |     |-- " ++ k1 ++ ": " ++ s1))
    else
      s ← format_value v;
      mret (string ++ newline ++ "  |-- " ++ k ++ ": " ++ s)).

(** * Properties of [skrl/agents/base.py] *)

(** ** Running a computation step by step *)

Lemma bind_ok {A B} (m : py A) (k : A → py B) w a w' :
  m w = (Ok a, w') → (m ≫= k) w = k a w'.
Proof. intros E. unfold mbind, py_bind. by rewrite E. Qed.

Lemma bind_raise {A B} (m : py A) (k : A → py B) w e w' :
  m w = (Raise e, w') → (m ≫= k) w = (Raise e, w').
Proof. intros E. unfold mbind, py_bind. by rewrite E. Qed.

Lemma set_heap_id w : set_heap (heap w) w = w.
Proof. by destruct w. Qed.

Lemma set_heap_set_heap h h' w : set_heap h (set_heap h' w) = set_heap h w.
Proof. done. Qed.

(** The state in which the instance at [l] has the attributes [attrs]. *)
Definition with_attrs (l : loc) (cls : string) (attrs : gmap string value)
    (w : world) : world :=
  set_heap (<[l := OInstance cls attrs]> (heap w)) w.

Lemma with_attrs_id l cls attrs w :
  heap w !! l = Some (OInstance cls attrs) → with_attrs l cls attrs w = w.
Proof. intros E. unfold with_attrs. by rewrite insert_id, set_heap_id. Qed.

Lemma getattr_ok l cls attrs name v w :
  heap w !! l = Some (OInstance cls attrs) → attrs !! name = Some v →
  getattr (VRef l) name w = (Ok v, w).
Proof. intros E1 E2. unfold getattr. by rewrite E1, E2. Qed.

Lemma setattr_ok l cls attrs name v w :
  heap w !! l = Some (OInstance cls attrs) →
  setattr (VRef l) name v w = (Ok tt, with_attrs l cls (<[name := v]> attrs) w).
Proof. intros E. unfold setattr. by rewrite E. Qed.

Lemma get_add_scalar_ok l d log w :
  heap w !! l = Some (OWriter d log) → get_add_scalar (VRef l) w = (Ok l, w).
Proof. intros E. unfold get_add_scalar. by rewrite E. Qed.

Lemma add_scalar_ok l d log tag x step w :
  heap w !! l = Some (OWriter d log) →
  int64 step →
  add_scalar l tag x step w
  = (Ok tt, set_heap (<[l := OWriter d (log ++ [(tag, x, step)])]> (heap w)) w).
Proof. intros E Hstep. unfold add_scalar. by rewrite E, decide_True. Qed.

Lemma add_scalar_out_of_range l d log tag x step w :
  heap w !! l = Some (OWriter d log) →
  ¬ int64 step →
  add_scalar l tag x step w = (Raise ValueError, w).
Proof. intros E Hstep. unfold add_scalar. by rewrite E, decide_False. Qed.

(** ** [act] *)

(** C2: [act] raises [NotImplementedError] whatever its arguments are, and
    leaves the whole state, the agent included, as it was. *)
Theorem act_not_implemented (self : value) (states : tensor) (inference : bool)
    (timestep timesteps : option Z) (w : world) :
  act self states inference timestep timesteps w = (Raise NotImplementedError, w).
Proof. reflexivity. Qed.

(** ** [pre_interaction] and [post_interaction] *)

(** C6: both hooks return [None] and leave the state, so every field of the
    agent, and the trace of collaborator calls, untouched. *)
Theorem interaction_hooks_noop (self : value) (timestep timesteps : Z) (w : world) :
  pre_interaction self timestep timesteps w = (Ok VNone, w)
  ∧ post_interaction self timestep timesteps w = (Ok VNone, w).
Proof. split; reflexivity. Qed.

(** ** [record_transition] *)

(** The three records that one call writes. *)
Definition reward_scalars (mx mn av : scalar) (timestep : Z)
  : list (string * scalar * Z) :=
  [("Instantaneous reward/max", mx, timestep);
   ("Instantaneous reward/min", mn, timestep);
   ("Instantaneous reward/mean", av, timestep)].

Lemma record_transition_run l cls attrs wl d log
    (states actions rewards next_states dones : tensor) (timestep timesteps : Z)
    tmx tmn tav mx mn av (w : world) :
  heap w !! l = Some (OInstance cls attrs) →
  attrs !! "writer" = Some (VRef wl) →
  heap w !! wl = Some (OWriter d log) →
  torch_max rewards = Ok tmx → tensor_item tmx = Ok mx →
  torch_min rewards = Ok tmn → tensor_item tmn = Ok mn →
  torch_mean rewards = Ok tav → tensor_item tav = Ok av →
  int64 timestep →
  record_transition (VRef l) states actions rewards next_states dones
    timestep timesteps w
  = (Ok VNone,
     set_heap (<[wl := OWriter d (log ++ reward_scalars mx mn av timestep)]> (heap w)) w).
Proof.
  intros Hl Hwr Hwl Emx Imx Emn Imn Eav Iav Hstep.
  assert (l ≠ wl) as Hne by (intros ->; congruence).
  unfold record_transition.
  rewrite Emx, Emn, Eav.
  erewrite bind_ok by (eapply getattr_ok; eauto).
  erewrite bind_ok by (eapply get_add_scalar_ok; eauto).
  erewrite bind_ok by reflexivity.
  erewrite bind_ok by (unfold lift; by rewrite Imx).
  erewrite bind_ok by (eapply add_scalar_ok; eauto).
  erewrite bind_ok
    by (eapply getattr_ok; [simpl; rewrite !lookup_insert_ne by done|]; eauto).
  erewrite bind_ok by (eapply get_add_scalar_ok; simpl; apply lookup_insert_eq).
  erewrite bind_ok by reflexivity.
  erewrite bind_ok by (unfold lift; by rewrite Imn).
  erewrite bind_ok
    by (eapply add_scalar_ok; [simpl; apply lookup_insert_eq|done]).
  erewrite bind_ok
    by (eapply getattr_ok; [simpl; rewrite !lookup_insert_ne by done|]; eauto).
  erewrite bind_ok by (eapply get_add_scalar_ok; simpl; apply lookup_insert_eq).
  erewrite bind_ok by reflexivity.
  erewrite bind_ok by (unfold lift; by rewrite Iav).
  erewrite bind_ok
    by (eapply add_scalar_ok; [simpl; apply lookup_insert_eq|done]).
  unfold mret, py_ret, reward_scalars. simpl.
  rewrite !set_heap_set_heap, !insert_insert_eq, <- !app_assoc. reflexivity.
Qed.

(** When the first reduction raises, so does [record_transition], before
    anything is written. *)
Lemma record_transition_reduction_raises l cls attrs wl d log
    (states actions rewards next_states dones : tensor) (timestep timesteps : Z)
    e (w : world) :
  heap w !! l = Some (OInstance cls attrs) →
  attrs !! "writer" = Some (VRef wl) →
  heap w !! wl = Some (OWriter d log) →
  torch_max rewards = Raise e →
  record_transition (VRef l) states actions rewards next_states dones
    timestep timesteps w = (Raise e, w).
Proof.
  intros Hl Hwr Hwl Emx. unfold record_transition. rewrite Emx.
  erewrite bind_ok by (eapply getattr_ok; eauto).
  erewrite bind_ok by (eapply get_add_scalar_ok; eauto).
  by erewrite bind_raise by reflexivity.
Qed.



(** ** [set_mode] *)

(** What the interpreter reads from its surroundings is the same in both
    states. *)
Definition same_env (w w' : world) : Prop :=
  cuda_is_available w' = cuda_is_available w
  ∧ getcwd w' = getcwd w
  ∧ now_strftime w' = now_strftime w
  ∧ default_cfg w' = default_cfg w
  ∧ now_strftime_writer w' = now_strftime_writer w
  ∧ gethostname w' = gethostname w
  ∧ open_log_dir w' = open_log_dir w.

(** Between two heaps, only models changed their state. *)
Definition only_models_changed (h h' : gmap loc object) : Prop :=
  ∀ l, match h !! l with
       | Some (OModel _) => ∃ m', h' !! l = Some (OModel m')
       | o => h' !! l = o
       end.

Lemma only_models_changed_refl h : only_models_changed h h.
Proof. intros l. destruct (h !! l) as [[]|]; eauto. Qed.

Lemma only_models_changed_trans h1 h2 h3 :
  only_models_changed h1 h2 → only_models_changed h2 h3 →
  only_models_changed h1 h3.
Proof.
  intros H12 H23 l. specialize (H12 l). specialize (H23 l).
  destruct (h1 !! l) as [[]|]; try (by rewrite H12 in H23).
  destruct H12 as [m' E]. by rewrite E in H23.
Qed.

Lemma only_models_changed_insert h l m m' :
  h !! l = Some (OModel m) → only_models_changed h (<[l := OModel m']> h).
Proof.
  intros E l'. destruct (decide (l = l')) as [<-|Hne].
  - rewrite E, lookup_insert_eq. eauto.
  - rewrite lookup_insert_ne by done. destruct (h !! l') as [[]|]; eauto.
Qed.

(** Every value of the dict refers to a model. *)
Definition models_in (h : gmap loc object) (items : dict) : Prop :=
  Forall (λ kv, ∃ lm m, kv.2 = VRef lm ∧ h !! lm = Some (OModel m)) items.

Lemma models_in_changed h h' items :
  only_models_changed h h' → models_in h items → models_in h' items.
Proof.
  intros Hc Hm. eapply Forall_impl; [exact Hm|].
  intros [k v] (lm & m & -> & E). simpl.
  specialize (Hc lm). rewrite E in Hc. destruct Hc as [m' E'].
  by exists lm, m'.
Qed.

Lemma dict_lookup_key (items : dict) k :
  k ∈ dict_keys items → ∃ v, dict_lookup items k = Some v ∧ (k, v) ∈ items.
Proof.
  induction items as [|[k' v'] items IH]; simpl.
  - by intros ?%elem_of_nil.
  - intros Hk. destruct (decide (k' = k)) as [->|Hne].
    + exists v'. split; [done|]. by left.
    + apply elem_of_cons in Hk as [?|Hk]; [congruence|].
      destruct (IH Hk) as (v & ? & ?). exists v. split; [done|]. by right.
Qed.

(** The event [ev] is the call [networks[k].set_mode(mode)]. *)
Definition is_forward (items : dict) (mode : string) (k : string) (ev : event) : Prop :=
  ∃ lm, dict_lookup items k = Some (VRef lm) ∧ ev = CallSetMode lm mode.

Lemma dict_items_ok e d items w :
  heap w !! d = Some (ODict items) → dict_items e (VRef d) w = (Ok items, w).
Proof. intros E. unfold dict_items. by rewrite E. Qed.

(** One iteration of the loop of [set_mode]. *)
Lemma set_mode_iteration l cls attrs d items mode k (w : world) :
  heap w !! l = Some (OInstance cls attrs) →
  attrs !! "networks" = Some (VRef d) →
  heap w !! d = Some (ODict items) →
  models_in (heap w) items →
  k ∈ dict_keys items →
  ∃ lm m,
    dict_lookup items k = Some (VRef lm)
    ∧ heap w !! lm = Some (OModel m)
    ∧ (nets ← getattr (VRef l) "networks";
       m ← dict_getitem nets k;
       call_set_mode m mode) w
      = let w1 := set_trace (trace w ++ [CallSetMode lm mode]) w in
        match model_set_mode m mode with
        | Ok m' => (Ok tt, set_heap (<[lm := OModel m']> (heap w)) w1)
        | Raise e => (Raise e, w1)
        end.
Proof.
  intros Hl Hn Hd Hm Hk.
  destruct (dict_lookup_key items k Hk) as (v & Hv & Hin).
  unfold models_in in Hm. rewrite Forall_forall in Hm.
  destruct (Hm _ Hin) as (lm & m & Ev & Elm). simpl in Ev. subst v.
  exists lm, m. split_and!; [done..|].
  erewrite bind_ok by (eapply getattr_ok; eauto).
  unfold dict_getitem.
  erewrite bind_ok; [|erewrite bind_ok by (by apply dict_items_ok); by rewrite Hv].
  unfold call_set_mode. by rewrite Elm.
Qed.

Lemma last_cons_cons {A} (x y : A) l : last (x :: y :: l) = last (y :: l).
Proof. done. Qed.

(** The loop of [set_mode] over keys [ks] of the dict: it calls the models
    of a prefix of [ks], in order; either it gets through all of [ks], or
    it stops at the call that raised, with that exception. *)
Lemma set_mode_loop l cls attrs d items mode ks :
  attrs !! "networks" = Some (VRef d) →
  ks ⊆ dict_keys items →
  ∀ w : world,
  heap w !! l = Some (OInstance cls attrs) →
  heap w !! d = Some (ODict items) →
  models_in (heap w) items →
  ∃ r w' n evs,
    for_each ks (λ k,
      nets ← getattr (VRef l) "networks";
      m ← dict_getitem nets k;
      call_set_mode m mode) w = (r, w')
    ∧ trace w' = (trace w ++ evs)%list
    ∧ Forall2 (is_forward items mode) (take n ks) evs
    ∧ only_models_changed (heap w) (heap w')
    ∧ same_env w w'
    ∧ ((r = Ok tt ∧ n = List.length ks)
       ∨ (∃ e lm m, r = Raise e
            ∧ last evs = Some (CallSetMode lm mode)
            ∧ heap w' !! lm = Some (OModel m)
            ∧ model_set_mode m mode = Raise e)).
Proof.
  intros Hn. induction ks as [|k ks IH]; intros Hsub w Hl Hd Hm.
  - exists (Ok tt), w, 0, []. split_and!; try done.
    + by rewrite app_nil_r.
    + apply only_models_changed_refl.
    + by left.
  - assert (k ∈ dict_keys items) as Hk by (apply Hsub; by left).
    assert (ks ⊆ dict_keys items) as Hsub' by (intros x Hx; apply Hsub; by right).
    destruct (set_mode_iteration l cls attrs d items mode k w)
      as (lm & m & Hlk & Hlm & Hrun); [done..|].
    simpl in Hrun. simpl for_each.
    destruct (model_set_mode m mode) as [m'|e] eqn:Hcall.
    + pose (w1 := set_heap (<[lm := OModel m']> (heap w))
                    (set_trace (trace w ++ [CallSetMode lm mode]) w)).
      assert (only_models_changed (heap w) (heap w1)) as Hc
        by (by eapply only_models_changed_insert).
      destruct (IH Hsub' w1) as (r & w' & n & evs & Hfor & Htr & Hfw & Hc' & Henv & Hres).
      { specialize (Hc l). by rewrite Hl in Hc. }
      { specialize (Hc d). by rewrite Hd in Hc. }
      { by eapply models_in_changed. }
      exists r, w', (S n), (CallSetMode lm mode :: evs). split_and!.
      * erewrite bind_ok by exact Hrun. exact Hfor.
      * rewrite Htr. simpl. by rewrite <- app_assoc.
      * simpl. constructor; [by exists lm|done].
      * by eapply only_models_changed_trans.
      * exact Henv.
      * destruct Hres as [[-> ->]|(e & lm' & m'' & -> & Hlast & Hlm' & Hraise)].
        -- by left.
        -- right. exists e, lm', m''. split_and!; try done.
           destruct evs; [done|]. by rewrite last_cons_cons.
    + exists (Raise e), (set_trace (trace w ++ [CallSetMode lm mode]) w),
        1, [CallSetMode lm mode]. split_and!.
      * by erewrite bind_raise by exact Hrun.
      * done.
      * simpl. rewrite take_0. constructor; [by exists lm|constructor].
      * apply only_models_changed_refl.
      * done.
      * right. by exists e, lm, m.
Qed.

Lemma set_mode_run l cls attrs d items mode (w : world) :
  heap w !! l = Some (OInstance cls attrs) →
  attrs !! "networks" = Some (VRef d) →
  heap w !! d = Some (ODict items) →
  models_in (heap w) items →
  ∃ r w' n evs,
    set_mode (VRef l) mode w = (r, w')
    ∧ trace w' = (trace w ++ evs)%list
    ∧ Forall2 (is_forward items mode) (take n (dict_keys items)) evs
    ∧ only_models_changed (heap w) (heap w')
    ∧ same_env w w'
    ∧ ((r = Ok VNone ∧ n = List.length (dict_keys items))
       ∨ (∃ e lm m, r = Raise e
            ∧ last evs = Some (CallSetMode lm mode)
            ∧ heap w' !! lm = Some (OModel m)
            ∧ model_set_mode m mode = Raise e)).
Proof.
  intros Hl Hn Hd Hm.
  destruct (set_mode_loop l cls attrs d items mode (dict_keys items) Hn
              (reflexivity _) w Hl Hd Hm)
    as (r & w' & n & evs & Hfor & Htr & Hfw & Hc & Henv & Hres).
  unfold set_mode.
  erewrite bind_ok by (eapply getattr_ok; eauto).
  unfold dict_iter.
  erewrite bind_ok by (erewrite bind_ok by (by apply dict_items_ok); reflexivity).
  destruct Hres as [[-> ->]|(e & lm & m & -> & Hlast & Hlm & Hraise)].
  - exists (Ok VNone), w', (List.length (dict_keys items)), evs.
    split_and!; try done.
    + by erewrite bind_ok by exact Hfor.
    + by left.
  - exists (Raise e), w', n, evs. split_and!; try done.
    + by erewrite bind_raise by exact Hfor.
    + right. by exists e, lm, m.
Qed.

Lemma only_models_changed_keeps h h' l o :
  only_models_changed h h' → h !! l = Some o → (∀ m, o ≠ OModel m) →
  h' !! l = Some o.
Proof.
  intros Hc E Hno. specialize (Hc l). rewrite E in Hc.
  destruct o; try done. by destruct (Hno m).
Qed.



(** C10 as the specification words it, for one agent and one string: the
    model of every entry of the dict that is the agent's [networks] gets a
    call with the string. *)
Definition forwards_to_every_model (l : loc) (mode : string) (w : world) : Prop :=
  ∀ cls attrs d items k lm,
    heap w !! l = Some (OInstance cls attrs) →
    attrs !! "networks" = Some (VRef d) →
    heap w !! d = Some (ODict items) →
    (k, VRef lm) ∈ items →
    CallSetMode lm mode ∈ trace (set_mode (VRef l) mode w).2.

(** C10, amended: [set_mode] does not look at [mode].  For any string, it
    forwards that very string to the models, key by key and from the first
    key on; it returns [None] once every model got it, and it raises
    nothing of its own: an exception can only come out of it as the
    exception that the model called last raised on that string, and then
    the models of the keys after that one do not get the string.  When the
    models accept the string, whatever it is, every model gets it. *)
Theorem set_mode_no_validation l cls attrs d items (mode : string) (w : world) :
  heap w !! l = Some (OInstance cls attrs) →
  attrs !! "networks" = Some (VRef d) →
  heap w !! d = Some (ODict items) →
  models_in (heap w) items →
  ∃ r w' n evs,
    set_mode (VRef l) mode w = (r, w')
    ∧ trace w' = (trace w ++ evs)%list
    ∧ Forall2 (is_forward items mode) (take n (dict_keys items)) evs
    ∧ (items ≠ [] → 0 < n)
    ∧ ((r = Ok VNone ∧ n = List.length (dict_keys items))
       ∨ (∃ e lm m, r = Raise e
            ∧ last evs = Some (CallSetMode lm mode)
            ∧ heap w' !! lm = Some (OModel m)
            ∧ model_set_mode m mode = Raise e))
    ∧ ((∀ m, ∃ m', model_set_mode m mode = Ok m') →
       r = Ok VNone ∧ n = List.length (dict_keys items)).
Proof.
  intros Hl Hn Hd Hm.
  destruct (set_mode_run l cls attrs d items mode w Hl Hn Hd Hm)
    as (r & w' & n & evs & Hrun & Htr & Hfw & Hc & Henv & Hres).
  exists r, w', n, evs. split_and!; try done.
  - intros Hne. destruct Hres as [[-> ->]|(e & lm & m & -> & Hlast & _ & _)].
    + destruct items; [done|]. simpl. lia.
    + destruct n; [|lia]. rewrite take_0 in Hfw. inversion Hfw; subst. done.
  - intros Hacc.
    destruct Hres as [[-> ->]|(e & lm & m & -> & _ & _ & Hraise)]; [done|].
    destruct (Hacc m) as [m' E]. congruence.
Qed.

(** ** Construction *)

(** The dict that a value refers to, and the string that a value is. *)
Definition as_dict (h : gmap loc object) (v : value) : option dict :=
  match v with
  | VRef c => match h !! c with Some (ODict items) => Some items | _ => None end
  | _ => None
  end.

Definition as_str (v : value) : option string :=
  match v with VStr x => Some x | _ => None end.

Lemma dict_items_as_dict e v (w : world) :
  dict_items e v w
  = (match as_dict (heap w) v with
     | Some items => Ok items
     | None => Raise e
     end, w).
Proof.
  unfold dict_items, as_dict. destruct v; try done.
  by destruct (heap w !! l) as [[]|].
Qed.

Lemma as_dict_with_attrs l cls attrs cls' attrs' (h : gmap loc object) v :
  h !! l = Some (OInstance cls attrs) →
  as_dict (<[l := OInstance cls' attrs']> h) v = as_dict h v.
Proof.
  intros E. destruct v as [| | | | |c]; try done. simpl.
  destruct (decide (l = c)) as [<-|Hne].
  - by rewrite lookup_insert_eq, E.
  - by rewrite lookup_insert_ne.
Qed.

Lemma with_attrs_with_attrs l cls a a' w :
  with_attrs l cls a (with_attrs l cls a' w) = with_attrs l cls a w.
Proof. unfold with_attrs. simpl. by rewrite set_heap_set_heap, insert_insert_eq. Qed.

Lemma setattr_with_attrs l cls a name v w :
  setattr (VRef l) name v (with_attrs l cls a w)
  = (Ok tt, with_attrs l cls (<[name := v]> a) w).
Proof.
  erewrite setattr_ok by (simpl; apply lookup_insert_eq).
  by rewrite with_attrs_with_attrs.
Qed.

Lemma getattr_with_attrs l cls a name v w :
  a !! name = Some v →
  getattr (VRef l) name (with_attrs l cls a w) = (Ok v, with_attrs l cls a w).
Proof. intros E. eapply getattr_ok; [simpl; apply lookup_insert_eq|done]. Qed.

Lemma class_name_with_attrs l cls a w :
  class_name (VRef l) (with_attrs l cls a w) = (Ok cls, with_attrs l cls a w).
Proof. unfold class_name. simpl. by rewrite lookup_insert_eq. Qed.

Lemma dict_get_run v key dflt (w : world) :
  dict_get v key dflt w
  = (match as_dict (heap w) v with
     | Some items => Ok (default dflt (dict_lookup items key))
     | None => Raise AttributeError
     end, w).
Proof.
  unfold dict_get. destruct (as_dict (heap w) v) as [items|] eqn:E.
  - erewrite bind_ok; [done|]. by rewrite dict_items_as_dict, E.
  - erewrite bind_raise; [done|]. by rewrite dict_items_as_dict, E.
Qed.

Lemma path_join_run a b (w : world) :
  path_join a b w
  = (match as_str a, as_str b with
     | Some x, Some y => Ok (VStr (os_path_join x y))
     | _, _ => Raise TypeError
     end, w).
Proof. by destruct a, b. Qed.

(** The attributes that [__init__] sets, given the values that it worked
    out for the last three. *)
Definition init_attrs (env networks memory cfg dev dir wr : value)
    (attrs : gmap string value) : gmap string value :=
  <["writer" := wr]> (<["experiment_dir" := dir]> (<["device" := dev]>
    (<["cfg" := cfg]> (<["memory" := memory]> (<["networks" := networks]>
      (<["env" := env]> attrs)))))).

(** [self.device], from the configuration [items]. *)
Definition init_device (items : dict) (w : world) : value :=
  let d := default VNone (dict_lookup items "device") in
  if decide (d = VNone)
  then VDevice (if cuda_is_available w then cuda else cpu)
  else d.

(** The two components of [self.experiment_dir], the first for a working
    directory [cwd]. *)
Definition init_log_dir (items : dict) (cwd : string) : value :=
  default (VStr (os_path_join cwd "runs")) (dict_lookup items "log_dir").

Definition init_experiment_name (items : dict) (cls : string) (w : world) : value :=
  default (VStr (now_strftime w ++ "_" ++ cls)) (dict_lookup items "experiment_name").

Lemma bind_run {A B} (m : py A) (k : A → py B) w :
  (m ≫= k) w
  = match m w with
    | (Ok a, w') => k a w'
    | (Raise e, w') => (Raise e, w')
    end.
Proof. done. Qed.

Lemma alloc_run o (w : world) :
  alloc o w
  = (Ok (VRef (fresh (dom (heap w)))),
     set_heap (<[fresh (dom (heap w)) := o]> (heap w)) w).
Proof. done. Qed.

(** What [__init__] does on an instance, step by step: it stops at a [cfg]
    that is no dict, at a working directory that is not there, at a
    component of the experiment directory that is no string, and at a
    writer that cannot make its directory. *)
Lemma init_run l cls attrs0 (env networks memory cfg : value) (w : world) :
  heap w !! l = Some (OInstance cls attrs0) →
  __init__ (VRef l) env networks memory cfg w
  = let a4 := <["cfg" := cfg]> (<["memory" := memory]>
                (<["networks" := networks]> (<["env" := env]> attrs0))) in
    match as_dict (heap w) cfg with
    | None => (Raise AttributeError, with_attrs l cls a4 w)
    | Some items =>
        let dev := init_device items w in
        let a5 := <["device" := dev]> a4 in
        match getcwd w with
        | Raise e => (Raise e, with_attrs l cls a5 w)
        | Ok cwd =>
            match as_str (init_log_dir items cwd),
                  as_str (init_experiment_name items cls w) with
            | Some a, Some b =>
                let dir := writer_log_dir w (os_path_join a b) in
                match open_log_dir w dir with
                | Some e =>
                    (Raise e,
                     with_attrs l cls
                       (<["experiment_dir" := VStr (os_path_join a b)]> a5) w)
                | None =>
                    let wl := fresh (dom (heap w)) in
                    (Ok tt,
                     set_heap
                       (<[l := OInstance cls
                                 (init_attrs env networks memory cfg dev
                                    (VStr (os_path_join a b)) (VRef wl) attrs0)]>
                          (<[wl := OWriter dir []]> (heap w))) w)
                end
            | _, _ => (Raise TypeError, with_attrs l cls a5 w)
            end
        end
    end.
Proof.
  intros Hl. cbv zeta. unfold __init__.
  rewrite <- (with_attrs_id l cls attrs0 w Hl) at 1.
  do 4 (erewrite bind_ok by apply setattr_with_attrs).
  erewrite bind_ok by (apply getattr_with_attrs; by simplify_map_eq).
  rewrite bind_run, dict_get_run. simpl heap. erewrite as_dict_with_attrs by exact Hl.
  destruct (as_dict (heap w) cfg) as [items|] eqn:Hcfg; [|done].
  erewrite bind_ok by apply setattr_with_attrs.
  erewrite bind_ok by (apply getattr_with_attrs; by simplify_map_eq).
  set (a4 := <["cfg":=cfg]> _).
  erewrite (bind_ok _ _ _ tt (with_attrs l cls (<["device" := init_device items w]> a4) w)).
  2:{ unfold init_device.
      destruct (decide (default VNone (dict_lookup items "device") = VNone)) as [E|E].
      - erewrite bind_ok by reflexivity. rewrite setattr_with_attrs.
        by rewrite insert_insert_eq.
      - done. }
  set (a5 := <["device" := _]> a4).
  erewrite bind_ok by (apply getattr_with_attrs; subst a5 a4; by simplify_map_eq).
  rewrite bind_run. unfold os_getcwd.
  change (getcwd (with_attrs l cls a5 w)) with (getcwd w).
  destruct (getcwd w) as [cwd|e]; [|done].
  erewrite bind_ok by reflexivity.
  rewrite bind_run, dict_get_run. simpl heap. erewrite as_dict_with_attrs by exact Hl.
  rewrite Hcfg.
  erewrite bind_ok by (apply getattr_with_attrs; subst a5 a4; by simplify_map_eq).
  erewrite bind_ok by reflexivity.
  erewrite bind_ok by apply class_name_with_attrs.
  rewrite bind_run, dict_get_run. simpl heap. erewrite as_dict_with_attrs by exact Hl.
  rewrite Hcfg.
  rewrite bind_run, path_join_run.
  change (now_strftime (with_attrs l cls a5 w)) with (now_strftime w).
  fold (init_log_dir items cwd). fold (init_experiment_name items cls w).
  destruct (as_str (init_log_dir items cwd)) as [a|]; [|done].
  destruct (as_str (init_experiment_name items cls w)) as [b|]; [|done].
  erewrite bind_ok by apply setattr_with_attrs.
  erewrite bind_ok by (apply getattr_with_attrs; by simplify_map_eq).
  set (a6 := <["experiment_dir" := _]> a5).
  rewrite bind_run. unfold SummaryWriter.
  erewrite bind_ok by reflexivity.
  rewrite bind_run. unfold open_event_file.
  change (writer_log_dir (with_attrs l cls a6 w) (os_path_join a b))
    with (writer_log_dir w (os_path_join a b)).
  change (open_log_dir (with_attrs l cls a6 w)) with (open_log_dir w).
  destruct (open_log_dir w (writer_log_dir w (os_path_join a b))) as [e|]; [done|].
  rewrite alloc_run.
  assert (dom (heap (with_attrs l cls a6 w)) = dom (heap w)) as ->.
  { simpl. apply dom_insert_lookup_L. by rewrite Hl. }
  assert (fresh (dom (heap w)) ≠ l) as Hne.
  { intros E. apply (is_fresh (dom (heap w))). rewrite E.
    eapply elem_of_dom_2, Hl. }
  erewrite setattr_ok
    by (simpl; rewrite lookup_insert_ne by done; apply lookup_insert_eq).
  unfold with_attrs, init_attrs. simpl. rewrite !set_heap_set_heap.
  f_equal. f_equal.
  rewrite (insert_insert_ne _ (fresh (dom (heap w))) l) by done.
  by rewrite insert_insert_eq.
Qed.

Lemma as_dict_alloc l o (h : gmap loc object) v :
  h !! l = None → (∀ items, o ≠ ODict items) →
  as_dict (<[l := o]> h) v = as_dict h v.
Proof.
  intros E Ho. destruct v as [| | | | |c]; try done. simpl.
  destruct (decide (l = c)) as [<-|Hne].
  - rewrite lookup_insert_eq, E. destruct o; try done. by destruct (Ho items).
  - by rewrite lookup_insert_ne.
Qed.

Lemma fresh_loc_unused (h : gmap loc object) : h !! fresh (dom h) = None.
Proof. apply not_elem_of_dom, is_fresh. Qed.

(** The state after a construction that went through: the new agent at
    [l], the new writer at [wl], the rest of the heap as it was. *)
Definition constructed (cls : string) (env networks memory cfg : value)
    (items : dict) (a b : string) (l wl : loc) (w : world) : world :=
  set_heap
    (<[l := OInstance cls
              (init_attrs env networks memory cfg (init_device items w)
                 (VStr (os_path_join a b)) (VRef wl) ∅)]>
       (<[wl := OWriter (writer_log_dir w (os_path_join a b)) []]> (heap w))) w.

(** The outcome of a construction, from what it finds: the configuration,
    the working directory, the two components of the experiment directory,
    and what making the directory of the writer does. *)
Definition construction_result (cls : string) (cfgv : value) (w : world)
  : result value :=
  match as_dict (heap w) cfgv with
  | None => Raise AttributeError
  | Some items =>
      match getcwd w with
      | Raise e => Raise e
      | Ok cwd =>
          match as_str (init_log_dir items cwd),
                as_str (init_experiment_name items cls w) with
          | Some a, Some b =>
              match open_log_dir w (writer_log_dir w (os_path_join a b)) with
              | Some e => Raise e
              | None => Ok (VRef (fresh (dom (heap w))))
              end
          | _, _ => Raise TypeError
          end
      end
  end.

Lemma Agent_run cls (env networks : value) (memory cfg : option value) (w : world) :
  let memv := default VNone memory in
  let cfgv := default (VRef (default_cfg w)) cfg in
  let l := fresh (dom (heap w)) in
  let wl := fresh ({[l]} ∪ dom (heap w)) in
  ∃ w',
    Agent cls env networks memory cfg w = (construction_result cls cfgv w, w')
    ∧ (∀ l' o, heap w !! l' = Some o → heap w' !! l' = Some o)
    ∧ (∀ l' d log, heap w' !! l' = Some (OWriter d log) →
         construction_result cls cfgv w = Raise TypeError →
         heap w !! l' = Some (OWriter d log))
    ∧ ∀ items cwd a b,
        as_dict (heap w) cfgv = Some items →
        getcwd w = Ok cwd →
        as_str (init_log_dir items cwd) = Some a →
        as_str (init_experiment_name items cls w) = Some b →
        open_log_dir w (writer_log_dir w (os_path_join a b)) = None →
        w' = constructed cls env networks memv cfgv items a b l wl w.
Proof.
  intros memv cfgv l wl. unfold Agent, construction_result.
  erewrite bind_ok by apply alloc_run.
  erewrite bind_ok by reflexivity.
  fold l. simpl default_cfg. fold memv cfgv.
  set (w1 := set_heap (<[l := OInstance cls ∅]> (heap w)) w).
  assert (heap w1 !! l = Some (OInstance cls ∅)) as Hl by apply lookup_insert_eq.
  assert (heap w !! l = None) as Hfresh by apply fresh_loc_unused.
  assert (∀ l' o, heap w !! l' = Some o → l ≠ l') as Hold
    by (intros l' o Hl' <-; congruence).
  assert (wl ≠ l) as Hne.
  { intros E. apply (is_fresh ({[l]} ∪ dom (heap w))). fold wl. set_solver. }
  assert (heap w !! wl = None) as Hwl.
  { apply not_elem_of_dom. intros Hin.
    apply (is_fresh ({[l]} ∪ dom (heap w))). fold wl. set_solver. }
  rewrite bind_run, (init_run l cls ∅ env networks memv cfgv w1 Hl). cbv zeta.
  assert (as_dict (heap w1) cfgv = as_dict (heap w) cfgv) as ->.
  { by apply as_dict_alloc. }
  change (getcwd w1) with (getcwd w).
  change (open_log_dir w1) with (open_log_dir w).
  assert (∀ a, with_attrs l cls a w1 = with_attrs l cls a w) as Hwith.
  { intros a. unfold with_attrs, w1. simpl.
    by rewrite set_heap_set_heap, insert_insert_eq. }
  destruct (as_dict (heap w) cfgv) as [items|].
  2:{ eexists. split; [reflexivity|]. rewrite Hwith. split_and!.
      - intros l' o Hl'. simpl. rewrite lookup_insert_ne; [done|by eapply Hold].
      - done.
      - by intros. }
  destruct (getcwd w) as [cwd|e].
  2:{ eexists. split; [reflexivity|]. rewrite Hwith. split_and!.
      - intros l' o Hl'. simpl. rewrite lookup_insert_ne; [done|by eapply Hold].
      - intros l' d log Hl' Hr. simpl in Hl'.
        destruct (decide (l = l')) as [<-|Hll].
        + by rewrite lookup_insert_eq in Hl'.
        + by rewrite lookup_insert_ne in Hl'.
      - by intros. }
  change (init_experiment_name items cls w1) with (init_experiment_name items cls w).
  change (writer_log_dir w1) with (writer_log_dir w).
  destruct (as_str (init_log_dir items cwd)) as [a|] eqn:Ea,
    (as_str (init_experiment_name items cls w)) as [b|] eqn:Eb.
  2,3,4: eexists; (split; [reflexivity|]); rewrite Hwith; split_and!;
    [ intros l' o Hl'; simpl; rewrite lookup_insert_ne; [done|by eapply Hold]
    | intros l' d log Hl' _; simpl in Hl';
      destruct (decide (l = l')) as [<-|Hll];
      [ by rewrite lookup_insert_eq in Hl' | by rewrite lookup_insert_ne in Hl' ]
    | intros ???? [= <-] [= <-]; congruence ].
  destruct (open_log_dir w (writer_log_dir w (os_path_join a b))) as [e|] eqn:Eo.
  - eexists. split; [reflexivity|]. rewrite Hwith. split_and!.
    + intros l' o Hl'. simpl. rewrite lookup_insert_ne; [done|by eapply Hold].
    + intros l' d log Hl' Hr. simpl in Hl'.
      destruct (decide (l = l')) as [<-|Hll].
      * by rewrite lookup_insert_eq in Hl'.
      * by rewrite lookup_insert_ne in Hl'.
    + intros items' cwd' a' b' [= <-] [= <-] Ha Hb. congruence.
  - eexists. split; [reflexivity|]. split_and!.
    + intros l' o Hl'. simpl. rewrite dom_insert_L. fold wl.
      rewrite lookup_insert_ne by (by eapply Hold).
      rewrite lookup_insert_ne by (intros <-; congruence).
      rewrite lookup_insert_ne; [done|by eapply Hold].
    + done.
    + intros items' cwd' a' b' [= <-] [= <-] Ha Hb _.
      assert (a' = a) as -> by congruence. assert (b' = b) as -> by congruence.
      unfold constructed. subst w1. simpl heap. rewrite set_heap_set_heap.
      rewrite dom_insert_L. fold wl.
      f_equal. rewrite (insert_insert_ne _ wl l) by done.
      by rewrite insert_insert_eq.
Qed.

(** A construction that returned went through every step. *)
Lemma Agent_inv cls (env networks : value) (memory cfg : option value)
    (w : world) self w' :
  Agent cls env networks memory cfg w = (Ok self, w') →
  let memv := default VNone memory in
  let cfgv := default (VRef (default_cfg w)) cfg in
  let l := fresh (dom (heap w)) in
  let wl := fresh ({[l]} ∪ dom (heap w)) in
  ∃ items cwd a b,
    as_dict (heap w) cfgv = Some items
    ∧ getcwd w = Ok cwd
    ∧ init_log_dir items cwd = VStr a
    ∧ init_experiment_name items cls w = VStr b
    ∧ open_log_dir w (writer_log_dir w (os_path_join a b)) = None
    ∧ self = VRef l
    ∧ w' = constructed cls env networks memv cfgv items a b l wl w
    ∧ heap w !! l = None ∧ heap w !! wl = None ∧ l ≠ wl.
Proof.
  intros Hrun memv cfgv l wl.
  destruct (Agent_run cls env networks memory cfg w) as (w'' & Hrun' & _ & _ & Hw).
  fold memv cfgv l wl in Hrun', Hw. rewrite Hrun in Hrun'.
  unfold construction_result in Hrun'.
  destruct (as_dict (heap w) cfgv) as [items|] eqn:Hcfg; [|done].
  destruct (getcwd w) as [cwd|e] eqn:Hcwd; [|done].
  destruct (init_log_dir items cwd) as [| | |a| |] eqn:Ea; try done.
  destruct (init_experiment_name items cls w) as [| | |b| |] eqn:Eb; try done.
  simpl in Hrun'.
  destruct (open_log_dir w (writer_log_dir w (os_path_join a b))) eqn:Eo; [done|].
  injection Hrun' as -> ->.
  exists items, cwd, a, b. split_and!; try done.
  - eapply Hw; by rewrite ?Ea, ?Eb.
  - apply fresh_loc_unused.
  - apply not_elem_of_dom. intros Hin.
    apply (is_fresh ({[l]} ∪ dom (heap w))). fold wl. set_solver.
  - intros E. apply (is_fresh ({[l]} ∪ dom (heap w))). fold wl. set_solver.
Qed.

(** A construction goes through when the configuration is a dict whose
    [log_dir] and [experiment_name], where present, are strings, there is
    a working directory, and the directory of the writer can be made. *)
Lemma Agent_ok cls (env networks : value) (memory cfg : option value)
    (w : world) items cwd a b :
  let memv := default VNone memory in
  let cfgv := default (VRef (default_cfg w)) cfg in
  let l := fresh (dom (heap w)) in
  let wl := fresh ({[l]} ∪ dom (heap w)) in
  as_dict (heap w) cfgv = Some items →
  getcwd w = Ok cwd →
  init_log_dir items cwd = VStr a →
  init_experiment_name items cls w = VStr b →
  open_log_dir w (writer_log_dir w (os_path_join a b)) = None →
  Agent cls env networks memory cfg w
  = (Ok (VRef l), constructed cls env networks memv cfgv items a b l wl w).
Proof.
  intros memv cfgv l wl Hcfg Hcwd Ea Eb Eo.
  destruct (Agent_run cls env networks memory cfg w) as (w' & Hrun & _ & _ & Hw).
  fold memv cfgv l wl in Hrun, Hw.
  rewrite Hrun. unfold construction_result.
  rewrite Hcfg, Hcwd, Ea, Eb. simpl. rewrite Eo. f_equal.
  eapply Hw; by rewrite ?Ea, ?Eb.
Qed.

(** C4: after a construction, the agent's [env], [networks], [memory] and
    [cfg] are the very values that were passed ([None] for a [memory] left
    out, the default dict for a [cfg] left out), and every object that
    existed before, so every object these refer to, is as it was. *)
Theorem construction_wraps_arguments cls (env networks : value)
    (memory cfg : option value) (w : world) self w' :
  Agent cls env networks memory cfg w = (Ok self, w') →
  ∃ l attrs,
    self = VRef l
    ∧ heap w !! l = None
    ∧ heap w' !! l = Some (OInstance cls attrs)
    ∧ attrs !! "env" = Some env
    ∧ attrs !! "networks" = Some networks
    ∧ attrs !! "memory" = Some (default VNone memory)
    ∧ attrs !! "cfg" = Some (default (VRef (default_cfg w)) cfg)
    ∧ ∀ l' o, heap w !! l' = Some o → heap w' !! l' = Some o.
Proof.
  intros Hrun.
  destruct (Agent_inv _ _ _ _ _ _ _ _ Hrun)
    as (items & cwd & a & b & Hcfg & Hcwd & Ea & Eb & Eo & -> & -> & Hl & Hwl & Hne).
  eexists _, _. split_and!; try done.
  - simpl. apply lookup_insert_eq.
  - unfold init_attrs. by simplify_map_eq.
  - unfold init_attrs. by simplify_map_eq.
  - unfold init_attrs. by simplify_map_eq.
  - unfold init_attrs. by simplify_map_eq.
  - intros l' o Hl'. simpl.
    rewrite !lookup_insert_ne; [done|intros <-; congruence..].
Qed.

(** An agent that is nothing but the aggregate of the four arguments. *)
Definition plain_aggregate (env networks memory cfg : value) : gmap string value :=
  {[ "cfg" := cfg; "memory" := memory; "networks" := networks; "env" := env ]}.

(** Construction as plain aggregation: the agent that a construction makes
    has the four fields and no other. *)
Definition plain_aggregation (cls : string) (env networks : value)
    (memory cfg : option value) (w : world) : Prop :=
  ∀ self w',
    Agent cls env networks memory cfg w = (Ok self, w') →
    ∃ l, self = VRef l
         ∧ heap w' !! l
           = Some (OInstance cls
                     (plain_aggregate env networks (default VNone memory)
                        (default (VRef (default_cfg w)) cfg))).

(** C5, amended: a construction sets the four wrapped fields from its
    arguments and, on top of them, three fields that it derives: [device]
    from the configuration or from the availability of CUDA,
    [experiment_dir] as the join of the configured or default log
    directory and experiment name, and [writer], a new writer made for
    that directory: over it, or over the directory of the writer's own
    when [experiment_dir] is the empty string.  Nothing else is added to
    the state. *)
Theorem construction_sets_seven_fields cls (env networks : value)
    (memory cfg : option value) (w : world) self w' :
  Agent cls env networks memory cfg w = (Ok self, w') →
  ∃ l wl items cwd a b dir,
    self = VRef l
    ∧ as_dict (heap w) (default (VRef (default_cfg w)) cfg) = Some items
    ∧ getcwd w = Ok cwd
    ∧ default (VStr (os_path_join cwd "runs")) (dict_lookup items "log_dir")
      = VStr a
    ∧ default (VStr (now_strftime w ++ "_" ++ cls))
        (dict_lookup items "experiment_name") = VStr b
    ∧ (os_path_join a b ≠ "" → dir = os_path_join a b)
    ∧ (os_path_join a b = "" →
       dir = os_path_join "runs" (now_strftime_writer w ++ "_" ++ gethostname w))
    ∧ heap w !! l = None ∧ heap w !! wl = None ∧ l ≠ wl
    ∧ heap w'
      = <[l := OInstance cls
                 (<["writer" := VRef wl]>
                    (<["experiment_dir" := VStr (os_path_join a b)]>
                       (<["device" := init_device items w]>
                          (plain_aggregate env networks (default VNone memory)
                             (default (VRef (default_cfg w)) cfg)))))]>
          (<[wl := OWriter dir []]> (heap w))
    ∧ trace w' = trace w
    ∧ same_env w w'.
Proof.
  intros Hrun.
  destruct (Agent_inv _ _ _ _ _ _ _ _ Hrun)
    as (items & cwd & a & b & Hcfg & Hcwd & Ea & Eb & Eo & -> & -> & Hl & Hwl & Hne).
  eexists _, _, items, cwd, a, b, (writer_log_dir w (os_path_join a b)).
  split_and!; try done.
  - intros Hd. unfold writer_log_dir. by rewrite decide_False.
  - intros Hd. unfold writer_log_dir. by rewrite decide_True.
Qed.

(** C8: the constructed agent's [device] is the CUDA device if CUDA is
    available, and the CPU device if not, when the configuration has no
    ["device"] or has [None] for it; it is the configured value itself when
    that is not [None]. *)
Theorem construction_device cls (env networks : value)
    (memory cfg : option value) (w : world) l w' items :
  Agent cls env networks memory cfg w = (Ok (VRef l), w') →
  as_dict (heap w) (default (VRef (default_cfg w)) cfg) = Some items →
  ∃ attrs,
    heap w' !! l = Some (OInstance cls attrs)
    ∧ (dict_lookup items "device" = None ∨ dict_lookup items "device" = Some VNone →
       attrs !! "device"
       = Some (VDevice (if cuda_is_available w then cuda else cpu)))
    ∧ (∀ v, dict_lookup items "device" = Some v → v ≠ VNone →
         attrs !! "device" = Some v).
Proof.
  intros Hrun Hitems.
  destruct (Agent_inv _ _ _ _ _ _ _ _ Hrun)
    as (items' & cwd & a & b & Hcfg & Hcwd & Ea & Eb & Eo & [= ->] & ->
        & Hl & Hwl & Hne).
  assert (items' = items) as -> by congruence.
  eexists. split_and!.
  - simpl. apply lookup_insert_eq.
  - intros Hd. unfold init_attrs.
    rewrite !lookup_insert_ne, lookup_insert_eq by done.
    unfold init_device. by destruct Hd as [-> | ->].
  - intros v Hv Hnone. unfold init_attrs.
    rewrite !lookup_insert_ne, lookup_insert_eq by done.
    unfold init_device. rewrite Hv. simpl. by rewrite decide_False.
Qed.

(** C9 as the specification words it, for one construction: the writer
    of the agent made is over the very directory that is its
    [experiment_dir]. *)
Definition writer_over_experiment_dir (cls : string) (env networks : value)
    (memory cfg : option value) (w : world) : Prop :=
  ∀ l w',
    Agent cls env networks memory cfg w = (Ok (VRef l), w') →
    ∃ cls' attrs dir wl log,
      heap w' !! l = Some (OInstance cls' attrs)
      ∧ attrs !! "experiment_dir" = Some (VStr dir)
      ∧ attrs !! "writer" = Some (VRef wl)
      ∧ heap w' !! wl = Some (OWriter dir log).

(** C9, amended: when the configuration has an ["experiment_name"], the
    constructed agent's [experiment_dir] is the path join of the configured
    ["log_dir"], or of [<cwd>/runs] when there is none, with that name, and
    the agent's [writer] is a writer made by this construction over
    exactly that directory, unless that join is the empty string: the
    writer is then over the directory of its own, [runs] joined with the
    time and the name of the host. *)
Theorem construction_experiment_dir cls (env networks : value)
    (memory cfg : option value) (w : world) l w' items name :
  Agent cls env networks memory cfg w = (Ok (VRef l), w') →
  as_dict (heap w) (default (VRef (default_cfg w)) cfg) = Some items →
  dict_lookup items "experiment_name" = Some name →
  ∃ cwd a b attrs wl dir,
    getcwd w = Ok cwd
    ∧ default (VStr (os_path_join cwd "runs")) (dict_lookup items "log_dir")
      = VStr a
    ∧ name = VStr b
    ∧ heap w' !! l = Some (OInstance cls attrs)
    ∧ attrs !! "experiment_dir" = Some (VStr (os_path_join a b))
    ∧ attrs !! "writer" = Some (VRef wl)
    ∧ heap w !! wl = None
    ∧ heap w' !! wl = Some (OWriter dir [])
    ∧ (os_path_join a b ≠ "" → dir = os_path_join a b)
    ∧ (os_path_join a b = "" →
       dir = os_path_join "runs" (now_strftime_writer w ++ "_" ++ gethostname w)).
Proof.
  intros Hrun Hitems Hname.
  destruct (Agent_inv _ _ _ _ _ _ _ _ Hrun)
    as (items' & cwd & a & b & Hcfg & Hcwd & Ea & Eb & Eo & [= ->] & ->
        & Hl & Hwl & Hne).
  assert (items' = items) as -> by congruence.
  unfold init_experiment_name in Eb. rewrite Hname in Eb. simpl in Eb.
  eexists cwd, a, b, _, _, (writer_log_dir w (os_path_join a b)).
  split_and!; try done.
  - simpl. apply lookup_insert_eq.
  - unfold init_attrs. by simplify_map_eq.
  - unfold init_attrs. by simplify_map_eq.
  - simpl. rewrite lookup_insert_ne by done. apply lookup_insert_eq.
  - intros Hd. unfold writer_log_dir. by rewrite decide_False.
  - intros Hd. unfold writer_log_dir. by rewrite decide_True.
Qed.

(** ** [__str__] *)

Lemma string_app_assoc (a b c : string) : (a ++ b) ++ c = a ++ b ++ c.
Proof.
  induction a as [|x a IH]; [done|]. exact (f_equal (String x) IH).
Qed.

Lemma string_app_nil_r (a : string) : a ++ "" = a.
Proof.
  induction a as [|x a IH]; [done|]. exact (f_equal (String x) IH).
Qed.

(** The pieces of a text, put together. *)
Definition flatten (pieces : list string) : string := foldr String.append "" pieces.

(** The line of an entry of a nested dict, and the lines of an entry of the
    configuration: one line, or for a dict a line with the key and then the
    lines of its entries. *)
Definition str_nested_line (h : gmap loc object) (kv : string * value) : string :=
  newline ++ "  |     |-- " ++ kv.1 ++ ": " ++ str_value h kv.2.

Definition str_entry (h : gmap loc object) (kv : string * value) : string :=
  match as_dict h kv.2 with
  | Some sub => newline ++ "  |-- " ++ kv.1 ++ flatten (str_nested_line h <$> sub)
  | None => newline ++ "  |-- " ++ kv.1 ++ ": " ++ str_value h kv.2
  end.

Lemma fold_each_append {A} (xs : list A) (f : A → string)
    (body : string → A → py string) (w : world) :
  (∀ acc x, body acc x w = (Ok (acc ++ f x), w)) →
  ∀ acc, fold_each xs acc body w = (Ok (acc ++ flatten (f <$> xs)), w).
Proof.
  intros Hbody. induction xs as [|x xs IH]; intros acc; simpl.
  - by rewrite string_app_nil_r.
  - erewrite bind_ok by apply Hbody. rewrite IH. by rewrite string_app_assoc.
Qed.

Lemma type_is_dict_run v (w : world) :
  type_is_dict v w = (Ok (bool_decide (is_Some (as_dict (heap w) v))), w).
Proof.
  unfold type_is_dict, as_dict. destruct v as [| | | | |l]; try done.
  destruct (heap w !! l) as [[]|]; try done.
  all: rewrite bool_decide_eq_false_2; [done|by intros [? ?]].
Qed.

Lemma str_run l cls attrs c items (w : world) :
  heap w !! l = Some (OInstance cls attrs) →
  attrs !! "cfg" = Some c →
  as_dict (heap w) c = Some items →
  __str__ (VRef l) w
  = (Ok ("Agent: " ++ py_repr (heap w) (VRef l)
         ++ flatten (str_entry (heap w) <$> items)), w).
Proof.
  intros Hl Hc Hitems. unfold __str__.
  erewrite bind_ok by reflexivity.
  erewrite bind_ok by (eapply getattr_ok; eauto).
  erewrite bind_ok by (by rewrite dict_items_as_dict, Hitems).
  rewrite (fold_each_append items (str_entry (heap w))).
  - by rewrite string_app_assoc.
  - intros acc [k v]. rewrite bind_run, type_is_dict_run. unfold str_entry. simpl.
    destruct (as_dict (heap w) v) as [sub|] eqn:Hsub.
    + rewrite bool_decide_eq_true_2 by done.
      erewrite bind_ok by (by rewrite dict_items_as_dict, Hsub).
      rewrite (fold_each_append sub (str_nested_line (heap w))).
      * by rewrite !string_app_assoc.
      * by intros acc' [k1 v1].
    + rewrite bool_decide_eq_false_2 by (by intros [? ?]). done.
Qed.

(** X1: on an agent whose [cfg] is a dict, [__str__] returns, and changes
    nothing: the text is ["Agent: "] with the [repr] of the agent, then for
    each entry of the configuration, in order, its line, a dict among the
    values being spread over a line with its key and a line for each of
    its entries. *)
Theorem str_agent l cls attrs c items (w : world) :
  heap w !! l = Some (OInstance cls attrs) →
  attrs !! "cfg" = Some c →
  as_dict (heap w) c = Some items →
  __str__ (VRef l) w
  = (Ok ("Agent: " ++ py_repr (heap w) (VRef l)
         ++ flatten (str_entry (heap w) <$> items)), w).
Proof. apply str_run. Qed.

(** The number of line breaks in a text. *)
Fixpoint count_newlines (s : string) : nat :=
  match s with
  | EmptyString => 0
  | String c s' =>
      (if decide (c = ascii_of_nat 10) then 1 else 0) + count_newlines s'
  end.

Lemma count_newlines_app (a b : string) :
  count_newlines (a ++ b) = count_newlines a + count_newlines b.
Proof.
  induction a as [|x a IH]; [done|].
  change (String x a ++ b) with (String x (a ++ b)). simpl. rewrite IH. lia.
Qed.

Definition one_line (s : string) : Prop := count_newlines s = 0.

(** The keys and the printed values of an entry have no line break. *)
Definition entry_one_line (h : gmap loc object) (kv : string * value) : Prop :=
  one_line kv.1
  ∧ match as_dict h kv.2 with
    | Some sub =>
        Forall (λ kv1 : string * value,
                  one_line kv1.1 ∧ one_line (str_value h kv1.2)) sub
    | None => one_line (str_value h kv.2)
    end.

(** The lines that an entry takes. *)
Definition entry_lines (h : gmap loc object) (kv : string * value) : nat :=
  match as_dict h kv.2 with
  | Some sub => 1 + List.length sub
  | None => 1
  end.

Lemma str_nested_lines_count h (sub : dict) :
  Forall (λ kv1 : string * value,
            one_line kv1.1 ∧ one_line (str_value h kv1.2)) sub →
  count_newlines (flatten (str_nested_line h <$> sub)) = List.length sub.
Proof.
  induction 1 as [|[k1 v1] sub [Hk Hv] _ IH]; [done|].
  change (flatten (str_nested_line h <$> (k1, v1) :: sub))
    with (str_nested_line h (k1, v1) ++ flatten (str_nested_line h <$> sub)).
  rewrite count_newlines_app, IH. unfold str_nested_line.
  rewrite !count_newlines_app. unfold one_line in Hk, Hv. simpl in Hk, Hv.
  simpl fst. simpl snd. rewrite Hk, Hv. reflexivity.
Qed.

Lemma str_entry_lines_count h (kv : string * value) :
  entry_one_line h kv → count_newlines (str_entry h kv) = entry_lines h kv.
Proof.
  destruct kv as [k v]. unfold entry_one_line, str_entry, entry_lines, one_line.
  simpl. intros [Hk Hv]. destruct (as_dict h v) as [sub|].
  - rewrite !count_newlines_app, str_nested_lines_count, Hk by done. reflexivity.
  - rewrite !count_newlines_app, Hk, Hv. reflexivity.
Qed.

(** X2: when neither the [repr] of the agent nor a key or a printed value
    of the configuration has a line break in it, the text of [__str__] has
    the heading and then one line for each entry of the configuration and
    one more for each entry of a dict among its values. *)
Theorem str_agent_lines l cls attrs c items (w : world) :
  heap w !! l = Some (OInstance cls attrs) →
  attrs !! "cfg" = Some c →
  as_dict (heap w) c = Some items →
  one_line (py_repr (heap w) (VRef l)) →
  Forall (entry_one_line (heap w)) items →
  ∃ text,
    __str__ (VRef l) w = (Ok text, w)
    ∧ count_newlines text = sum_list (entry_lines (heap w) <$> items).
Proof.
  intros Hl Hc Hitems Hrepr Hone. eexists. split; [by eapply str_run|].
  rewrite !count_newlines_app. unfold one_line in Hrepr. rewrite Hrepr. simpl.
  clear Hitems. induction Hone as [|kv items Hkv _ IH]; [done|].
  change (flatten (str_entry (heap w) <$> kv :: items))
    with (str_entry (heap w) kv ++ flatten (str_entry (heap w) <$> items)).
  rewrite count_newlines_app, str_entry_lines_count, IH by done. reflexivity.
Qed.

Lemma as_dict_constructed cls env networks memory cfg items a b l wl (w : world) v :
  heap w !! l = None → heap w !! wl = None →
  as_dict (heap (constructed cls env networks memory cfg items a b l wl w)) v
  = as_dict (heap w) v.
Proof.
  intros Hl Hwl. simpl. destruct (decide (l = wl)) as [<-|Hne].
  - rewrite insert_insert_eq. by apply as_dict_alloc.
  - rewrite as_dict_alloc; [by apply as_dict_alloc|by rewrite lookup_insert_ne|done].
Qed.

(** X3: [str] of an agent that a construction returned never raises and
    changes nothing; its text lists the entries of the configuration that
    the agent was made with. *)
Theorem str_of_constructed cls (env networks : value) (memory cfg : option value)
    (w : world) self w' :
  Agent cls env networks memory cfg w = (Ok self, w') →
  ∃ items,
    as_dict (heap w) (default (VRef (default_cfg w)) cfg) = Some items
    ∧ __str__ self w'
      = (Ok ("Agent: " ++ py_repr (heap w') self
             ++ flatten (str_entry (heap w') <$> items)), w').
Proof.
  intros Hrun.
  destruct (Agent_inv _ _ _ _ _ _ _ _ Hrun)
    as (items & cwd & a & b & Hcfg & Hcwd & Ea & Eb & Eo & -> & -> & Hl & Hwl & Hne).
  exists items. split; [done|].
  eapply str_run.
  - simpl. apply lookup_insert_eq.
  - unfold init_attrs. by simplify_map_eq.
  - by rewrite as_dict_constructed.
Qed.

(** ** More about [record_transition] *)

(** One of the three statements of [record_transition], followed by the
    rest [k] of the body: the record is written if the reduction and
    [item] return and the step is one that a record can have; otherwise
    the exception of what raised comes out, with nothing written by this
    statement. *)
Lemma log_statement_run {B} (red : tensor → result tensor) (tag : string)
    (k : unit → py B) l cls attrs wl d log (rewards : tensor) (timestep : Z)
    (w : world) :
  heap w !! l = Some (OInstance cls attrs) →
  attrs !! "writer" = Some (VRef wl) →
  heap w !! wl = Some (OWriter d log) →
  (wr ← getattr (VRef l) "writer";
   add ← get_add_scalar wr;
   t ← lift (red rewards);
   x ← lift (tensor_item t);
   add_scalar add tag x timestep ≫= k) w
  = match red rewards with
    | Ok t =>
        match tensor_item t with
        | Ok x =>
            if decide (int64 timestep)
            then k tt (set_heap
                         (<[wl := OWriter d (log ++ [(tag, x, timestep)])]> (heap w))
                         w)
            else (Raise ValueError, w)
        | Raise e => (Raise e, w)
        end
    | Raise e => (Raise e, w)
    end.
Proof.
  intros Hl Hwr Hwl.
  erewrite bind_ok by (eapply getattr_ok; eauto).
  erewrite bind_ok by (eapply get_add_scalar_ok; eauto).
  destruct (red rewards) as [t|e]; [|done].
  erewrite bind_ok by reflexivity.
  destruct (tensor_item t) as [x|e]; [|done].
  erewrite bind_ok by reflexivity.
  destruct (decide (int64 timestep)) as [Hstep|Hstep].
  - by erewrite bind_ok by (eapply add_scalar_ok; eauto).
  - by erewrite bind_raise by (eapply add_scalar_out_of_range; eauto).
Qed.

(** The number that a reduction of the rewards gives:
    [torch.max(rewards).item()] and the like. *)
Definition reduced (red : tensor → result tensor) (rewards : tensor)
  : result scalar :=
  match red rewards with
  | Ok t => tensor_item t
  | Raise e => Raise e
  end.

(** What [record_transition] comes to, and the records it has written by
    then, from what the three reductions give: it stops at the first that
    raises, and at the first record if [timestep] is no step that a record
    can have. *)
Definition logged (mx mn av : result scalar) (timestep : Z)
  : result value * list (string * scalar * Z) :=
  match mx with
  | Raise e => (Raise e, [])
  | Ok x1 =>
      if decide (int64 timestep) then
        match mn with
        | Raise e => (Raise e, [("Instantaneous reward/max", x1, timestep)])
        | Ok x2 =>
            match av with
            | Raise e =>
                (Raise e, [("Instantaneous reward/max", x1, timestep);
                           ("Instantaneous reward/min", x2, timestep)])
            | Ok x3 => (Ok VNone, reward_scalars x1 x2 x3 timestep)
            end
        end
      else (Raise ValueError, [])
  end.

Local Ltac prefix_done :=
  split_and!;
  [ reflexivity
  | simpl; rewrite ?lookup_insert_eq, <- ?app_assoc, ?app_nil_r;
    first [reflexivity | assumption | congruence]
  | intros ? ?; simpl; by rewrite ?lookup_insert_ne
  | reflexivity
  | by repeat split ].

Lemma record_transition_prefix_run l cls attrs wl d log
    (states actions rewards next_states dones : tensor) (timestep timesteps : Z)
    (w : world) :
  heap w !! l = Some (OInstance cls attrs) →
  attrs !! "writer" = Some (VRef wl) →
  heap w !! wl = Some (OWriter d log) →
  let out := logged (reduced torch_max rewards) (reduced torch_min rewards)
               (reduced torch_mean rewards) timestep in
  ∃ w',
    record_transition (VRef l) states actions rewards next_states dones
      timestep timesteps w = (out.1, w')
    ∧ heap w' !! wl = Some (OWriter d (log ++ out.2))
    ∧ (∀ l', l' ≠ wl → heap w' !! l' = heap w !! l')
    ∧ trace w' = trace w
    ∧ same_env w w'.
Proof.
  intros Hl Hwr Hwl.
  assert (l ≠ wl) as Hne by (intros ->; congruence).
  pose proof (app_nil_r log) as Hnil.
  unfold logged, reduced, record_transition. cbv zeta.
  erewrite (log_statement_run torch_max) by eauto.
  destruct (torch_max rewards) as [t1|e1];
    [destruct (tensor_item t1) as [x1|e1]|];
    [|exists w; prefix_done..].
  destruct (decide (int64 timestep)) as [Hstep|Hstep]; [|exists w; prefix_done].
  erewrite (log_statement_run torch_min)
    by (simpl; first [by rewrite lookup_insert_ne | apply lookup_insert_eq | eauto]).
  destruct (decide (int64 timestep)) as [_|?]; [|done].
  destruct (torch_min rewards) as [t2|e2];
    [destruct (tensor_item t2) as [x2|e2]|];
    [|eexists; prefix_done..].
  erewrite (log_statement_run torch_mean)
    by (simpl; first [by rewrite !lookup_insert_ne | apply lookup_insert_eq | eauto]).
  destruct (decide (int64 timestep)) as [_|?]; [|done].
  destruct (torch_mean rewards) as [t3|e3];
    [destruct (tensor_item t3) as [x3|e3]|];
    eexists; prefix_done.
Qed.

(** X4: whatever the reductions of the rewards do, [record_transition]
    on an agent with a writer only appends to that writer, and what it
    appends is a beginning of the three records, the max, the min and the
    mean of the rewards under their names and at step [timestep], in this
    order: all three when it returns [None]; those before the first
    reduction that raised, whose exception then comes out; and none, with
    [ValueError], when the max is there but [timestep] is no step that a
    record can have.  Every other object, and the trace of calls, is as
    before. *)
Theorem record_transition_writes_prefix l cls attrs wl d log
    (states actions rewards next_states dones : tensor) (timestep timesteps : Z)
    (w : world) :
  heap w !! l = Some (OInstance cls attrs) →
  attrs !! "writer" = Some (VRef wl) →
  heap w !! wl = Some (OWriter d log) →
  let out := logged (reduced torch_max rewards) (reduced torch_min rewards)
               (reduced torch_mean rewards) timestep in
  ∃ w',
    record_transition (VRef l) states actions rewards next_states dones
      timestep timesteps w = (out.1, w')
    ∧ heap w' !! wl = Some (OWriter d (log ++ out.2))
    ∧ (∀ l', l' ≠ wl → heap w' !! l' = heap w !! l')
    ∧ trace w' = trace w
    ∧ same_env w w'.
Proof. apply record_transition_prefix_run. Qed.

(** X5: the first [record_transition] of an agent that a construction
    returned, for rewards on which the reductions return and a [timestep]
    that a record can have as its step, leaves in the agent's writer the
    three records and nothing else; that writer is over the agent's
    [experiment_dir] unless this is the empty string. *)
Theorem first_record_transition cls (env networks : value)
    (memory cfg : option value) (w : world) l w1
    (states actions rewards next_states dones : tensor) (timestep timesteps : Z)
    tmx tmn tav mx mn av :
  Agent cls env networks memory cfg w = (Ok (VRef l), w1) →
  torch_max rewards = Ok tmx → tensor_item tmx = Ok mx →
  torch_min rewards = Ok tmn → tensor_item tmn = Ok mn →
  torch_mean rewards = Ok tav → tensor_item tav = Ok av →
  int64 timestep →
  ∃ attrs wl dir wdir w2,
    heap w1 !! l = Some (OInstance cls attrs)
    ∧ attrs !! "writer" = Some (VRef wl)
    ∧ attrs !! "experiment_dir" = Some (VStr dir)
    ∧ record_transition (VRef l) states actions rewards next_states dones
        timestep timesteps w1 = (Ok VNone, w2)
    ∧ heap w2 !! wl = Some (OWriter wdir (reward_scalars mx mn av timestep))
    ∧ (dir ≠ "" → wdir = dir).
Proof.
  intros Hrun Emx Imx Emn Imn Eav Iav Hstep.
  destruct (Agent_inv _ _ _ _ _ _ _ _ Hrun)
    as (items & cwd & a & b & Hcfg & Hcwd & Ea & Eb & Eo & [= ->] & ->
        & Hl & Hwl & Hne).
  eexists _, _, _, _, _. split_and!.
  - simpl. apply lookup_insert_eq.
  - unfold init_attrs. by simplify_map_eq.
  - unfold init_attrs. by simplify_map_eq.
  - eapply record_transition_run; eauto.
    + simpl. apply lookup_insert_eq.
    + unfold init_attrs. by simplify_map_eq.
    + simpl. rewrite lookup_insert_ne by done. apply lookup_insert_eq.
  - simpl. by rewrite lookup_insert_eq.
  - intros Hd. unfold writer_log_dir. by rewrite decide_False.
Qed.

(** [self] is an agent with a writer: [self.writer.add_scalar] can be
    evaluated. *)
Definition has_writer (h : gmap loc object) (self : value) : Prop :=
  ∃ l cls attrs wl d log,
    self = VRef l
    ∧ h !! l = Some (OInstance cls attrs)
    ∧ attrs !! "writer" = Some (VRef wl)
    ∧ h !! wl = Some (OWriter d log).

Lemma record_transition_no_writer_run (self : value)
    (states actions rewards next_states dones : tensor) (timestep timesteps : Z)
    (w : world) :
  ¬ has_writer (heap w) self →
  record_transition self states actions rewards next_states dones
    timestep timesteps w = (Raise AttributeError, w).
Proof.
  intros Hno. unfold record_transition.
  destruct (getattr self "writer" w) as [[wr|e] w1] eqn:Hget.
  - unfold getattr in Hget. destruct self as [| | | | |l]; try done.
    destruct (heap w !! l) as [[|cls attrs| | | |]|] eqn:Hl; try done.
    destruct (attrs !! "writer") as [v|] eqn:Hwr; [|done].
    injection Hget as -> <-.
    erewrite bind_ok by (eapply getattr_ok; eauto).
    apply bind_raise. unfold get_add_scalar.
    destruct wr as [| | | | |wl]; try done.
    destruct (heap w !! wl) as [[| | | |d log|]|] eqn:Hwl; try done.
    destruct Hno. by exists l, cls, attrs, wl, d, log.
  - apply bind_raise. rewrite Hget. unfold getattr in Hget.
    destruct self as [| | | | |l]; try (by injection Hget as <- <-).
    destruct (heap w !! l) as [[|cls attrs| | | |]|];
      try (by injection Hget as <- <-).
    destruct (attrs !! "writer"); [done|]. by injection Hget as <- <-.
Qed.

(** X6: on anything but an agent with a writer, [record_transition] raises
    [AttributeError] at once: no reduction of the rewards is evaluated,
    and nothing changes. *)
Theorem record_transition_without_writer (self : value)
    (states actions rewards next_states dones : tensor) (timestep timesteps : Z)
    (w : world) :
  ¬ has_writer (heap w) self →
  record_transition self states actions rewards next_states dones
    timestep timesteps w = (Raise AttributeError, w).
Proof. apply record_transition_no_writer_run. Qed.

(** ** What the methods leave alone *)

(** A computation made of two keeps a relation between the state before
    and the state after that both keep. *)
Lemma bind_keeps {A B} (R : world → world → Prop) (m : py A) (k : A → py B) w :
  (∀ w1 w2 w3, R w1 w2 → R w2 w3 → R w1 w3) →
  R w (m w).2 → (∀ a w1, R w1 (k a w1).2) → R w ((m ≫= k) w).2.
Proof.
  intros Htrans Hm Hk. rewrite bind_run.
  destruct (m w) as [[a|e] w1]; simpl in *; [|done].
  by eapply Htrans.
Qed.

Lemma for_each_keeps {A} (R : world → world → Prop) (xs : list A)
    (body : A → py unit) :
  (∀ w, R w w) →
  (∀ w1 w2 w3, R w1 w2 → R w2 w3 → R w1 w3) →
  (∀ x w, R w (body x w).2) →
  ∀ w, R w (for_each xs body w).2.
Proof.
  intros Hrefl Htrans Hbody. induction xs as [|x xs IH]; intros w; simpl.
  - apply Hrefl.
  - by apply bind_keeps.
Qed.

Lemma fold_each_keeps {A S} (R : world → world → Prop) (xs : list A)
    (body : S → A → py S) :
  (∀ w, R w w) →
  (∀ w1 w2 w3, R w1 w2 → R w2 w3 → R w1 w3) →
  (∀ acc x w, R w (body acc x w).2) →
  ∀ acc w, R w (fold_each xs acc body w).2.
Proof.
  intros Hrefl Htrans Hbody. induction xs as [|x xs IH]; intros acc w; simpl.
  - apply Hrefl.
  - by apply bind_keeps.
Qed.

Lemma getattr_state o name (w : world) : (getattr o name w).2 = w.
Proof.
  unfold getattr. destruct o as [| | | | |l]; try done.
  destruct (heap w !! l) as [[|cls attrs| | | |]|]; try done.
  by destruct (attrs !! name).
Qed.

Lemma dict_items_state e d (w : world) : (dict_items e d w).2 = w.
Proof. by rewrite dict_items_as_dict. Qed.

(** From [w] to [w'], models took new states on calls of
    [set_mode(mode)], which the trace has; nothing else happened. *)
Definition forwarded (mode : string) (w w' : world) : Prop :=
  only_models_changed (heap w) (heap w')
  ∧ same_env w w'
  ∧ ∃ evs,
      trace w' = (trace w ++ evs)%list
      ∧ Forall (λ ev, ∃ lm m, ev = CallSetMode lm mode
                              ∧ heap w !! lm = Some (OModel m)) evs.

Lemma forwarded_refl mode w : forwarded mode w w.
Proof.
  split_and!; [apply only_models_changed_refl|done|].
  exists []. by rewrite app_nil_r.
Qed.

Lemma forwarded_trans mode w1 w2 w3 :
  forwarded mode w1 w2 → forwarded mode w2 w3 → forwarded mode w1 w3.
Proof.
  intros (Hc12 & He12 & evs12 & Ht12 & Hf12) (Hc23 & He23 & evs23 & Ht23 & Hf23).
  split_and!.
  - by eapply only_models_changed_trans.
  - unfold same_env in *. destruct He12 as (? & ? & ? & ? & ? & ? & ?).
    destruct He23 as (? & ? & ? & ? & ? & ? & ?). split_and!; congruence.
  - exists (evs12 ++ evs23)%list. split.
    + by rewrite Ht23, Ht12, <- app_assoc.
    + apply Forall_app. split; [done|].
      eapply Forall_impl; [exact Hf23|]. intros ev (lm & m & -> & Hlm).
      exists lm. specialize (Hc12 lm). rewrite Hlm in Hc12.
      destruct (heap w1 !! lm) as [[]|]; try done. eauto.
Qed.

Lemma call_set_mode_forwarded m mode (w : world) :
  forwarded mode w (call_set_mode m mode w).2.
Proof.
  unfold call_set_mode. destruct m as [| | | | |l]; try apply forwarded_refl.
  destruct (heap w !! l) as [[| |st| | |]|] eqn:Hl; try apply forwarded_refl.
  assert (Forall (λ ev, ∃ lm m, ev = CallSetMode lm mode
                                ∧ heap w !! lm = Some (OModel m))
            [CallSetMode l mode]) as Hev.
  { constructor; [by exists l, st|constructor]. }
  destruct (model_set_mode st mode) as [st'|e]; simpl.
  - split_and!; [by eapply only_models_changed_insert|done|by eexists].
  - split_and!; [apply only_models_changed_refl|done|by eexists].
Qed.

Lemma set_mode_forwarded (self : value) (mode : string) (w : world) :
  forwarded mode w (set_mode self mode w).2.
Proof.
  unfold set_mode.
  apply bind_keeps; [apply forwarded_trans| |intros nets w1].
  { rewrite getattr_state. apply forwarded_refl. }
  apply bind_keeps; [apply forwarded_trans| |intros ks w2].
  { unfold dict_iter. rewrite bind_run, dict_items_as_dict.
    destruct (as_dict (heap w1) nets); apply forwarded_refl. }
  apply bind_keeps; [apply forwarded_trans| |intros; apply forwarded_refl].
  apply for_each_keeps; [apply forwarded_refl|apply forwarded_trans|].
  intros k w3.
  apply bind_keeps; [apply forwarded_trans| |intros nets' w4].
  { rewrite getattr_state. apply forwarded_refl. }
  apply bind_keeps; [apply forwarded_trans| |intros m w5].
  { unfold dict_getitem. rewrite bind_run, dict_items_as_dict.
    destruct (as_dict (heap w4) nets') as [items|]; [|apply forwarded_refl].
    destruct (dict_lookup items k); apply forwarded_refl. }
  apply call_set_mode_forwarded.
Qed.

(** [__str__] changes nothing, whether it returns or raises. *)
Lemma str_state (self : value) (w : world) : (__str__ self w).2 = w.
Proof.
  pose (R := λ w1 w2 : world, w2 = w1).
  assert (∀ w1 w2 w3, R w1 w2 → R w2 w3 → R w1 w3) as Htrans
    by (unfold R; congruence).
  assert (∀ w1, R w1 w1) as Hrefl by done.
  change (R w (__str__ self w).2). unfold __str__.
  apply bind_keeps; [done|done|intros r w1].
  apply bind_keeps; [done|apply getattr_state|intros c w2].
  apply bind_keeps; [done|apply dict_items_state|intros items w3].
  apply fold_each_keeps; [done..|]. intros acc [k v] w4.
  apply bind_keeps; [done| |intros isdict w5].
  { unfold R, type_is_dict. destruct v as [| | | | |l]; try done.
    by destruct (heap w4 !! l) as [[]|]. }
  destruct isdict.
  - apply bind_keeps; [done|apply dict_items_state|intros sub w6].
    apply fold_each_keeps; [done..|]. by intros acc' [k1 v1] w7.
  - done.
Qed.

(** X7: for any value as [self], any string and any state, whatever its
    outcome, all that [set_mode] does is make calls [set_mode(mode)], with
    that very string, on models: the trace grows by such calls only, no
    object that is not a model changes, and none is added. *)
Theorem set_mode_only_forwards (self : value) (mode : string) (w : world) :
  forwarded mode w (set_mode self mode w).2.
Proof. apply set_mode_forwarded. Qed.

(** ** The agent that construction makes, and that the methods keep *)

(** From the heap [h] to the heap [h'], every object stayed, as it was,
    but for a model, which may be in a new state, and for a writer, which
    may have more records. *)
Definition extends (h h' : gmap loc object) : Prop :=
  ∀ l, match h !! l with
       | Some (OModel _) => ∃ m', h' !! l = Some (OModel m')
       | Some (OWriter d log) => ∃ recs, h' !! l = Some (OWriter d (log ++ recs))
       | Some o => h' !! l = Some o
       | None => True
       end.

Lemma extends_refl h : extends h h.
Proof.
  intros l. destruct (h !! l) as [[]|]; eauto.
  exists []. by rewrite app_nil_r.
Qed.

Lemma extends_models h h' : only_models_changed h h' → extends h h'.
Proof.
  intros Hc l. specialize (Hc l). destruct (h !! l) as [[]|]; eauto.
  exists []. by rewrite app_nil_r.
Qed.

Lemma extends_append h h' wl d log recs :
  h !! wl = Some (OWriter d log) →
  h' !! wl = Some (OWriter d (log ++ recs)) →
  (∀ l, l ≠ wl → h' !! l = h !! l) →
  extends h h'.
Proof.
  intros Hwl Hwl' Hother l. destruct (decide (l = wl)) as [->|Hne].
  - rewrite Hwl. eauto.
  - rewrite (Hother l Hne). apply extends_refl.
Qed.

Lemma extends_alloc h h' :
  (∀ l o, h !! l = Some o → h' !! l = Some o) → extends h h'.
Proof.
  intros Hkeep l. destruct (h !! l) as [o|] eqn:E; [|done].
  rewrite (Hkeep l o E). destruct o; eauto. exists []. by rewrite app_nil_r.
Qed.

(** The agent at [l] is whole: it has the seven attributes, its [cfg] is a
    dict, its [device] is not [None], and its [writer] is a writer over its
    [experiment_dir]. *)
Definition agent_inv (h : gmap loc object) (l : loc) : Prop :=
  ∃ cls attrs c items dev dir wl log,
    h !! l = Some (OInstance cls attrs)
    ∧ is_Some (attrs !! "env")
    ∧ is_Some (attrs !! "networks")
    ∧ is_Some (attrs !! "memory")
    ∧ attrs !! "cfg" = Some c ∧ as_dict h c = Some items
    ∧ attrs !! "device" = Some dev ∧ dev ≠ VNone
    ∧ attrs !! "experiment_dir" = Some (VStr dir)
    ∧ attrs !! "writer" = Some (VRef wl)
    ∧ h !! wl = Some (OWriter dir log).

Lemma agent_inv_extends h h' l : extends h h' → agent_inv h l → agent_inv h' l.
Proof.
  intros Hext (cls & attrs & c & items & dev & dir & wl & log
               & Hl & Henv & Hnets & Hmem & Hc & Hitems & Hdev & Hnone
               & Hdir & Hwr & Hwl).
  pose proof (Hext wl) as Hwl'. rewrite Hwl in Hwl'. destruct Hwl' as [recs Hwl'].
  exists cls, attrs, c, items, dev, dir, wl, (log ++ recs)%list.
  split_and!; try done.
  - specialize (Hext l). by rewrite Hl in Hext.
  - unfold as_dict in *. destruct c as [| | | | |lc]; try done.
    specialize (Hext lc).
    destruct (h !! lc) as [[items'| | | | |]|] eqn:E; try done.
    by rewrite Hext.
Qed.

(** A construction, whatever its outcome, leaves every object that was
    there as it was. *)
Lemma Agent_keeps cls (env networks : value) (memory cfg : option value)
    (w : world) l' o :
  heap w !! l' = Some o →
  heap (Agent cls env networks memory cfg w).2 !! l' = Some o.
Proof.
  intros Hl'.
  destruct (Agent_run cls env networks memory cfg w) as (w' & Hrun & Hkeep & _).
  rewrite Hrun. simpl. by apply Hkeep.
Qed.

(** The attribute [name] of the instance at [l], if there is one. *)
Definition attr_of (h : gmap loc object) (l : loc) (name : string)
  : option value :=
  match h !! l with
  | Some (OInstance _ attrs) => attrs !! name
  | _ => None
  end.

(** X8: a construction that returns makes a whole agent, if the
    [experiment_dir] of the agent is not the empty string. *)
Theorem construction_makes_whole_agent cls (env networks : value)
    (memory cfg : option value) (w : world) l w' :
  Agent cls env networks memory cfg w = (Ok (VRef l), w') →
  attr_of (heap w') l "experiment_dir" ≠ Some (VStr "") →
  agent_inv (heap w') l.
Proof.
  intros Hrun Hdir.
  destruct (Agent_inv _ _ _ _ _ _ _ _ Hrun)
    as (items & cwd & a & b & Hcfg & Hcwd & Ea & Eb & Eo & [= ->] & ->
        & Hl & Hwl & Hne).
  assert (os_path_join a b ≠ "") as Hjoin.
  { intros E. apply Hdir. unfold attr_of. simpl. rewrite lookup_insert_eq.
    unfold init_attrs. simplify_map_eq. by rewrite E. }
  eexists cls, _, _, items, (init_device items w), _, _, [].
  split_and!.
  - simpl. apply lookup_insert_eq.
  - unfold init_attrs. by simplify_map_eq.
  - unfold init_attrs. by simplify_map_eq.
  - unfold init_attrs. by simplify_map_eq.
  - unfold init_attrs. by simplify_map_eq.
  - by rewrite as_dict_constructed.
  - unfold init_attrs. by simplify_map_eq.
  - unfold init_device.
    destruct (decide (default VNone (dict_lookup items "device") = VNone)); done.
  - unfold init_attrs. by simplify_map_eq.
  - unfold init_attrs. by simplify_map_eq.
  - simpl. rewrite lookup_insert_ne by done. rewrite lookup_insert_eq.
    unfold writer_log_dir. by rewrite decide_False.
Qed.

Lemma has_writer_dec h self : has_writer h self ∨ ¬ has_writer h self.
Proof.
  destruct self as [| | | | |l];
    try (right; by intros (? & ? & ? & ? & ? & ? & ? & ?)).
  destruct (h !! l) as [[|cls attrs| | | |]|] eqn:Hl;
    try (right; intros (? & ? & ? & ? & ? & ? & [= <-] & ? & ?); congruence).
  destruct (attrs !! "writer") as [[| | | | |wl]|] eqn:Hwr;
    try (right; intros (? & ? & ? & ? & ? & ? & [= <-] & ? & ? & ?); congruence).
  destruct (h !! wl) as [[| | | |d log|]|] eqn:Hwl;
    try (right; intros (? & ? & ? & ? & ? & ? & [= <-] & ? & ? & ?); congruence).
  left. by exists l, cls, attrs, wl, d, log.
Qed.

Lemma record_transition_extends (self : value)
    (states actions rewards next_states dones : tensor) (timestep timesteps : Z)
    (w : world) :
  extends (heap w)
    (heap (record_transition self states actions rewards next_states dones
             timestep timesteps w).2).
Proof.
  destruct (has_writer_dec (heap w) self)
    as [(l & cls & attrs & wl & d & log & -> & Hl & Hwr & Hwl)|Hno].
  - destruct (record_transition_prefix_run l cls attrs wl d log
                states actions rewards next_states dones timestep timesteps w
                Hl Hwr Hwl)
      as (w' & -> & Hwl' & Hother & _).
    by eapply extends_append.
  - rewrite record_transition_no_writer_run by done. apply extends_refl.
Qed.

(** X9: a whole agent stays whole through whatever is done with any
    agent: a call of [act], [record_transition], [set_mode], one of the
    two hooks or [__str__], on any arguments and whether the call returns
    or raises, and the construction of one more agent, whether it goes
    through or not. *)
Theorem whole_agent_stays_whole (l : loc) (w : world)
    (self : value) (states actions rewards next_states dones : tensor)
    (inference : bool) (otimestep otimesteps : option Z) (timestep timesteps : Z)
    (mode cls : string) (env networks : value) (memory cfg : option value) :
  agent_inv (heap w) l →
  agent_inv (heap (act self states inference otimestep otimesteps w).2) l
  ∧ agent_inv
      (heap (record_transition self states actions rewards next_states dones
               timestep timesteps w).2) l
  ∧ agent_inv (heap (set_mode self mode w).2) l
  ∧ agent_inv (heap (pre_interaction self timestep timesteps w).2) l
  ∧ agent_inv (heap (post_interaction self timestep timesteps w).2) l
  ∧ agent_inv (heap (__str__ self w).2) l
  ∧ agent_inv (heap (Agent cls env networks memory cfg w).2) l.
Proof.
  intros Hinv. split_and!; try done.
  - eapply agent_inv_extends; [apply record_transition_extends|done].
  - eapply agent_inv_extends; [|done].
    apply extends_models, set_mode_forwarded.
  - by rewrite str_state.
  - eapply agent_inv_extends; [|done].
    apply extends_alloc. intros l' o. apply Agent_keeps.
Qed.


(** ** When a construction goes through *)




Lemma fresh_twice_ne (h : gmap loc object) :
  fresh (dom h) ≠ fresh ({[fresh (dom h)]} ∪ dom h).
Proof.
  intros E. pose proof (is_fresh ({[fresh (dom h)]} ∪ dom h)) as Hf.
  rewrite <- E in Hf. apply Hf, elem_of_union_l. by apply elem_of_singleton.
Qed.

(** X11: with neither ["log_dir"] nor ["experiment_name"] in its
    configuration, a dict, the agent that a construction returns logs
    under [<cwd>/runs], in a directory named after the time and the class
    of the agent, this class or one that inherits from it: this is its
    [experiment_dir], and its writer, with no record yet, is over it
    unless it is the empty string. *)
Theorem construction_default_experiment_dir cls (env networks : value)
    (memory cfg : option value) (w : world) items l w' :
  as_dict (heap w) (default (VRef (default_cfg w)) cfg) = Some items →
  dict_lookup items "log_dir" = None →
  dict_lookup items "experiment_name" = None →
  Agent cls env networks memory cfg w = (Ok (VRef l), w') →
  ∃ cwd attrs wl wdir,
    getcwd w = Ok cwd
    ∧ heap w' !! l = Some (OInstance cls attrs)
    ∧ attrs !! "experiment_dir"
      = Some (VStr (os_path_join (os_path_join cwd "runs")
                      (now_strftime w ++ "_" ++ cls)))
    ∧ attrs !! "writer" = Some (VRef wl)
    ∧ heap w' !! wl = Some (OWriter wdir [])
    ∧ (os_path_join (os_path_join cwd "runs") (now_strftime w ++ "_" ++ cls) ≠ ""
       → wdir = os_path_join (os_path_join cwd "runs")
                  (now_strftime w ++ "_" ++ cls)).
Proof.
  intros Hcfg Hlog Hname Hrun.
  destruct (Agent_inv _ _ _ _ _ _ _ _ Hrun)
    as (items' & cwd & a & b & Hcfg' & Hcwd & Ea & Eb & Eo & [= ->] & ->
        & Hl & Hwl & Hne).
  assert (items' = items) as -> by congruence.
  unfold init_log_dir in Ea. rewrite Hlog in Ea. injection Ea as <-.
  unfold init_experiment_name in Eb. rewrite Hname in Eb. injection Eb as <-.
  eexists cwd, _, _, _. split_and!.
  - done.
  - simpl. apply lookup_insert_eq.
  - unfold init_attrs. by simplify_map_eq.
  - unfold init_attrs. by simplify_map_eq.
  - simpl. rewrite lookup_insert_ne by done. apply lookup_insert_eq.
  - intros Hd. unfold writer_log_dir. by rewrite decide_False.
Qed.

(** X12: two agents made one after the other with [cfg] left out are two
    objects, each with a writer of its own, and they share one
    configuration: the [cfg] of both is the one dict that is the default
    of the parameter. *)
Theorem default_cfg_is_shared cls1 cls2 (env1 networks1 env2 networks2 : value)
    (memory1 memory2 : option value) (w : world) l1 w1 l2 w2 :
  Agent cls1 env1 networks1 memory1 None w = (Ok (VRef l1), w1) →
  Agent cls2 env2 networks2 memory2 None w1 = (Ok (VRef l2), w2) →
  ∃ attrs1 attrs2 wl1 wl2,
    heap w2 !! l1 = Some (OInstance cls1 attrs1)
    ∧ heap w2 !! l2 = Some (OInstance cls2 attrs2)
    ∧ l1 ≠ l2
    ∧ attrs1 !! "cfg" = Some (VRef (default_cfg w))
    ∧ attrs2 !! "cfg" = Some (VRef (default_cfg w))
    ∧ attrs1 !! "writer" = Some (VRef wl1)
    ∧ attrs2 !! "writer" = Some (VRef wl2)
    ∧ wl1 ≠ wl2.
Proof.
  intros Hrun1 Hrun2.
  destruct (Agent_inv _ _ _ _ _ _ _ _ Hrun1)
    as (items1 & cwd1 & a1 & b1 & Hcfg1 & Hcwd1 & Ea1 & Eb1 & Eo1 & [= ->] & ->
        & Hl1 & Hwl1 & Hne1).
  destruct (Agent_inv _ _ _ _ _ _ _ _ Hrun2)
    as (items2 & cwd2 & a2 & b2 & Hcfg2 & Hcwd2 & Ea2 & Eb2 & Eo2 & [= ->] & ->
        & Hl2 & Hwl2 & Hne2).
  simpl in Hl2, Hwl2 |- *.
  set (l1 := fresh (dom (heap w))) in *.
  set (wl1 := fresh ({[l1]} ∪ dom (heap w))) in *.
  set (h1 := <[l1 := _]> (<[wl1 := _]> (heap w))) in *.
  set (l2 := fresh (dom h1)) in *.
  set (wl2 := fresh ({[l2]} ∪ dom h1)) in *.
  assert (l1 ≠ l2) as Hl12.
  { intros E. rewrite <- E in Hl2. unfold h1 in Hl2.
    by rewrite lookup_insert_eq in Hl2. }
  assert (wl1 ≠ wl2) as Hwl12.
  { intros E. rewrite <- E in Hwl2. unfold h1 in Hwl2.
    rewrite lookup_insert_ne, lookup_insert_eq in Hwl2 by done. done. }
  assert (l1 ≠ wl2) as Hl1w2.
  { intros E. rewrite <- E in Hwl2. unfold h1 in Hwl2.
    by rewrite lookup_insert_eq in Hwl2. }
  eexists _, _, wl1, wl2. split_and!.
  - rewrite lookup_insert_ne by done. rewrite lookup_insert_ne by done.
    unfold h1. apply lookup_insert_eq.
  - apply lookup_insert_eq.
  - done.
  - unfold init_attrs. by simplify_map_eq.
  - unfold init_attrs. by simplify_map_eq.
  - unfold init_attrs. by simplify_map_eq.
  - unfold init_attrs. by simplify_map_eq.
  - done.
Qed.

(** ** Calling a method again *)

(** X13: [set_mode] can be called again: on an agent with a dict of models
    that accept both strings, [set_mode(mode1)] and then [set_mode(mode2)]
    return [None], and the trace has a call with [mode1] for each key and
    after these a call with [mode2] for each key. *)
Theorem set_mode_twice l cls attrs d items mode1 mode2 (w : world) :
  heap w !! l = Some (OInstance cls attrs) →
  attrs !! "networks" = Some (VRef d) →
  heap w !! d = Some (ODict items) →
  models_in (heap w) items →
  (∀ m, ∃ m', model_set_mode m mode1 = Ok m') →
  (∀ m, ∃ m', model_set_mode m mode2 = Ok m') →
  ∃ w' evs1 evs2,
    (set_mode (VRef l) mode1 ;; set_mode (VRef l) mode2) w = (Ok VNone, w')
    ∧ trace w' = (trace w ++ evs1 ++ evs2)%list
    ∧ Forall2 (is_forward items mode1) (dict_keys items) evs1
    ∧ Forall2 (is_forward items mode2) (dict_keys items) evs2.
Proof.
  intros Hl Hn Hd Hm Hacc1 Hacc2.
  destruct (set_mode_run l cls attrs d items mode1 w Hl Hn Hd Hm)
    as (r1 & w1 & n1 & evs1 & Hrun1 & Htr1 & Hfw1 & Hc1 & _ & Hres1).
  destruct Hres1 as [[-> ->]|(e & lm & m & -> & _ & _ & Hraise)];
    [|destruct (Hacc1 m) as [m' E]; congruence].
  rewrite firstn_all in Hfw1.
  assert (heap w1 !! l = Some (OInstance cls attrs)) as Hl1
    by (by eapply only_models_changed_keeps).
  assert (heap w1 !! d = Some (ODict items)) as Hd1
    by (by eapply only_models_changed_keeps).
  assert (models_in (heap w1) items) as Hm1 by (by eapply models_in_changed).
  destruct (set_mode_run l cls attrs d items mode2 w1 Hl1 Hn Hd1 Hm1)
    as (r2 & w2 & n2 & evs2 & Hrun2 & Htr2 & Hfw2 & _ & _ & Hres2).
  destruct Hres2 as [[-> ->]|(e & lm & m & -> & _ & _ & Hraise)];
    [|destruct (Hacc2 m) as [m' E]; congruence].
  rewrite firstn_all in Hfw2.
  exists w2, evs1, evs2. split_and!; try done.
  - by erewrite bind_ok by exact Hrun1.
  - by rewrite Htr2, Htr1, <- app_assoc.
Qed.

(** X14: the writer keeps the records of the calls in the order of the
    calls: if two calls of [record_transition] on an agent with a writer,
    one after the other, return, then they return [None], the three
    reductions of the rewards of each call gave a number, the two
    [timestep]s are steps that a record can have, and the writer has what
    it had, then the three records of the first call, then the three of
    the second. *)
Theorem record_transition_twice l cls attrs wl d log
    (states1 actions1 rewards1 next_states1 dones1 : tensor)
    (states2 actions2 rewards2 next_states2 dones2 : tensor)
    (timestep1 timestep2 timesteps : Z) (w : world) v w' :
  heap w !! l = Some (OInstance cls attrs) →
  attrs !! "writer" = Some (VRef wl) →
  heap w !! wl = Some (OWriter d log) →
  (record_transition (VRef l) states1 actions1 rewards1 next_states1 dones1
     timestep1 timesteps ;;
   record_transition (VRef l) states2 actions2 rewards2 next_states2 dones2
     timestep2 timesteps) w = (Ok v, w') →
  ∃ mx1 mn1 av1 mx2 mn2 av2,
    reduced torch_max rewards1 = Ok mx1
    ∧ reduced torch_min rewards1 = Ok mn1
    ∧ reduced torch_mean rewards1 = Ok av1
    ∧ reduced torch_max rewards2 = Ok mx2
    ∧ reduced torch_min rewards2 = Ok mn2
    ∧ reduced torch_mean rewards2 = Ok av2
    ∧ int64 timestep1 ∧ int64 timestep2
    ∧ v = VNone
    ∧ heap w' !! wl
      = Some (OWriter d (log ++ reward_scalars mx1 mn1 av1 timestep1
                             ++ reward_scalars mx2 mn2 av2 timestep2)).
Proof.
  intros Hl Hwr Hwl Hrun.
  assert (l ≠ wl) as Hne by (intros ->; congruence).
  destruct (record_transition_prefix_run l cls attrs wl d log
              states1 actions1 rewards1 next_states1 dones1 timestep1 timesteps
              w Hl Hwr Hwl) as (w1 & Hrun1 & Hwl1 & Hother1 & _).
  rewrite bind_run, Hrun1 in Hrun. unfold logged in Hrun, Hwl1.
  destruct (reduced torch_max rewards1) as [mx1|]; [|done].
  destruct (decide (int64 timestep1)) as [Hstep1|]; [|done].
  destruct (reduced torch_min rewards1) as [mn1|]; [|done].
  destruct (reduced torch_mean rewards1) as [av1|]; [|done].
  simpl in Hrun, Hwl1.
  assert (heap w1 !! l = Some (OInstance cls attrs)) as Hl1
    by (by rewrite Hother1).
  destruct (record_transition_prefix_run l cls attrs wl d _
              states2 actions2 rewards2 next_states2 dones2 timestep2 timesteps
              w1 Hl1 Hwr Hwl1) as (w2 & Hrun2 & Hwl2 & _).
  rewrite Hrun2 in Hrun. unfold logged in Hrun, Hwl2.
  destruct (reduced torch_max rewards2) as [mx2|]; [|done].
  destruct (decide (int64 timestep2)) as [Hstep2|]; [|done].
  destruct (reduced torch_min rewards2) as [mn2|]; [|done].
  destruct (reduced torch_mean rewards2) as [av2|]; [|done].
  simpl in Hrun, Hwl2. injection Hrun as <- <-.
  exists mx1, mn1, av1, mx2, mn2, av2. split_and!; try done.
  by rewrite Hwl2, <- app_assoc.
Qed.

End Interp.

(** * Properties of [tests/test_examples_isaac_orbit.py] *)

(** C7: for a command of the list, when [omni.isaac.kit] can be imported,
    what the test has emitted at its end is what had been emitted before
    and then one thing, the run of the command in a shell with its exit
    status checked: the test passes if the exit status is zero and fails
    with [CalledProcessError] if not.  When the import raises an
    [ImportError], what it has emitted at its end is what had been emitted
    before and then the one warning, so that no subprocess is run, and the
    test returns. *)
Theorem test_scripts_runs_or_skips `{!OsPath}
    (os_path_abspath os_path_dirname : string → string) (__file__ : string)
    (command : string) (w : test_world) :
  command ∈ COMMANDS os_path_abspath os_path_dirname __file__ →
  (import_omni_isaac_kit w = None →
   (test_scripts command w).1
   = (if decide (returncode_of w command = 0%Z) then Ok VNone
      else Raise (CalledProcessError (returncode_of w command) command))
   ∧ emitted (test_scripts command w).2
     = (emitted w ++ [SubprocessRun command true true])%list)
  ∧ (∀ e msg, import_omni_isaac_kit w = Some e → as_ImportError e = Some msg →
       (test_scripts command w).1 = Ok VNone
       ∧ emitted (test_scripts command w).2
         = (emitted w ++ [WarningsWarn (skip_message msg)])%list).
Proof.
  intros _. split.
  - intros Himp. unfold test_scripts, subprocess_run_shell_check. rewrite Himp.
    by destruct (decide (returncode_of w command = 0%Z)).
  - intros e msg Himp He. unfold test_scripts. by rewrite Himp, He.
Qed.

(** X15: the test passes in two cases and no other: the simulator package
    can be imported and the command exits with status 0, or the import
    raises an [ImportError], the package missing for one. *)
Theorem test_scripts_passes_iff (command : string) (w : test_world) :
  (test_scripts command w).1 = Ok VNone
  ↔ (import_omni_isaac_kit w = None ∧ returncode_of w command = 0%Z)
    ∨ (∃ e msg, import_omni_isaac_kit w = Some e ∧ as_ImportError e = Some msg).
Proof.
  unfold test_scripts, subprocess_run_shell_check.
  destruct (import_omni_isaac_kit w) as [e|].
  - destruct (as_ImportError e) as [msg|] eqn:He; simpl.
    + split; [|done]. intros _. right. by exists e, msg.
    + split; [done|]. intros [[? _]|(e' & msg & [= <-] & He')]; congruence.
  - destruct (decide (returncode_of w command = 0%Z)) as [Hrc|Hrc]; simpl.
    + split; [|done]. intros _. by left.
    + split; [done|]. intros [[_ ?]|(e & msg & ? & _)]; done.
Qed.

(** X16: whatever the state, the test emits at most one thing.  A
    subprocess is run only after the import went through, and it is the
    given command, in a shell, with its exit status checked; a warning is
    emitted only for an [ImportError]; and any other exception of the
    import comes out of the test as it is, with nothing emitted. *)
Theorem test_scripts_emits (command : string) (w : test_world) :
  ∃ evs,
    emitted (test_scripts command w).2 = (emitted w ++ evs)%list
    ∧ (List.length evs ≤ 1)%nat
    ∧ (∀ c shell check, SubprocessRun c shell check ∈ evs →
         import_omni_isaac_kit w = None
         ∧ c = command ∧ shell = true ∧ check = true)
    ∧ (∀ message, WarningsWarn message ∈ evs →
         ∃ e msg, import_omni_isaac_kit w = Some e
                  ∧ as_ImportError e = Some msg
                  ∧ message = skip_message msg)
    ∧ (∀ e, import_omni_isaac_kit w = Some e → as_ImportError e = None →
         (test_scripts command w).1 = Raise e ∧ evs = []).
Proof.
  unfold test_scripts, subprocess_run_shell_check.
  destruct (import_omni_isaac_kit w) as [e|] eqn:Himp.
  - destruct (as_ImportError e) as [msg|] eqn:He.
    + exists [WarningsWarn (skip_message msg)]. split_and!; try done.
      * intros c shell check Hin. apply list_elem_of_singleton in Hin. done.
      * intros message Hin. apply list_elem_of_singleton in Hin.
        injection Hin as ->. by exists e, msg.
      * intros e' [= <-] He'. congruence.
    + exists []. rewrite app_nil_r. split_and!; try done.
      * simpl. lia.
      * intros c shell check Hin. by apply elem_of_nil in Hin.
      * intros message Hin. by apply elem_of_nil in Hin.
      * by intros e' [= <-] _.
  - exists [SubprocessRun command true true]. split_and!; try done.
    + by destruct (decide (returncode_of w command = 0%Z)).
    + intros c shell check Hin. apply list_elem_of_singleton in Hin.
      by injection Hin as -> -> ->.
    + intros message Hin. apply list_elem_of_singleton in Hin. done.
Qed.

(** * The model at work *)

(** A model class that knows the two modes of the docstring of [set_mode]
    and rejects any other; its state is the mode it is in. *)
Definition two_mode_model : Model string :=
  {| model_set_mode := λ _ mode,
       if decide (mode = "train") then Ok mode
       else if decide (mode = "eval") then Ok mode
       else Raise (CollaboratorError "ValueError") |}.

(** Tensors of rationals: a reduction needs an element to reduce, and
    [item] a tensor of one element. *)
Definition rational_reduce (f : Q → Q → Q) (t : list Q) : result (list Q) :=
  match t with
  | [] => Raise (CollaboratorError "RuntimeError")
  | x :: t' => Ok [foldl f x t']
  end.

Definition rational_mean (t : list Q) : result (list Q) :=
  match t with
  | [] => Raise (CollaboratorError "RuntimeError")
  | _ => Ok [Qred (foldr Qplus 0%Q t / inject_Z (Z.of_nat (List.length t)))]
  end.

Definition rational_torch : Torch (list Q) Q :=
  {| torch_max := rational_reduce Qmax;
     torch_min := rational_reduce Qmin;
     torch_mean := rational_mean;
     tensor_item := λ t, match t with
                         | [x] => Ok x
                         | _ => Raise (CollaboratorError "RuntimeError")
                         end |}.

(** A state with an environment, two models in a dict, a memory, and three
    configuration dicts, the first of them the default of [cfg]. *)
Definition world0 : @world string (list Q) Q :=
  {| heap := {[ 1%positive := ODict [];
                2%positive := ODict [("policy", VRef 3%positive);
                                     ("value", VRef 4%positive)];
                3%positive := OModel "init";
                4%positive := OModel "init";
                5%positive := OEnv;
                6%positive := OMemory [];
                7%positive := ODict [("device", VNone);
                                     ("log_dir", VStr "/tmp/logs");
                                     ("experiment_name", VStr "run1")];
                8%positive := ODict [("device", VStr "cuda:1")] ]};
     trace := [];
     cuda_is_available := false;
     getcwd := Ok "/home/user";
     now_strftime := "22-03-01_12-00-00";
     default_cfg := 1%positive;
     now_strftime_writer := "Mar01_12-00-00";
     gethostname := "host";
     open_log_dir := λ _, None |}.

(** The states after [Agent(env, networks)], and after
    [Agent(env, networks, memory, cfg)] for the second and for the third
    configuration. *)
Definition world_default : @world string (list Q) Q :=
  Eval vm_compute in
  (Agent (H := posixpath) "Agent" (VRef 5%positive) (VRef 2%positive) None None
     world0).2.

Definition world_configured : @world string (list Q) Q :=
  Eval vm_compute in
  (Agent (H := posixpath) "Agent" (VRef 5%positive) (VRef 2%positive)
     (Some (VRef 6%positive)) (Some (VRef 7%positive)) world0).2.

Definition world_on_device : @world string (list Q) Q :=
  Eval vm_compute in
  (Agent (H := posixpath) "Agent" (VRef 5%positive) (VRef 2%positive)
     (Some (VRef 6%positive)) (Some (VRef 8%positive)) world0).2.

Definition attrs_at (w : @world string (list Q) Q) (l : loc) : gmap string value :=
  match heap w !! l with
  | Some (OInstance _ attrs) => attrs
  | _ => ∅
  end.

Example default_construction :
  Agent (H := posixpath) "Agent" (VRef 5%positive) (VRef 2%positive) None None world0
  = (Ok (VRef 9%positive), world_default)
  ∧ attrs_at world_default 9%positive
    = list_to_map
        [("env", VRef 5%positive); ("networks", VRef 2%positive);
         ("memory", VNone); ("cfg", VRef 1%positive);
         ("device", VDevice cpu);
         ("experiment_dir", VStr "/home/user/runs/22-03-01_12-00-00_Agent");
         ("writer", VRef 10%positive)]
  ∧ heap world_default !! 10%positive
    = Some (OWriter "/home/user/runs/22-03-01_12-00-00_Agent" []).
Proof.
  split; [|split].
  - vm_compute. reflexivity.
  - vm_cast_no_check (eq_refl (attrs_at world_default 9%positive)).
  - vm_compute. reflexivity.
Qed.

Example configured_construction :
  Agent (H := posixpath) "Agent" (VRef 5%positive) (VRef 2%positive)
    (Some (VRef 6%positive)) (Some (VRef 7%positive)) world0
  = (Ok (VRef 9%positive), world_configured)
  ∧ attrs_at world_configured 9%positive
    = list_to_map
        [("env", VRef 5%positive); ("networks", VRef 2%positive);
         ("memory", VRef 6%positive); ("cfg", VRef 7%positive);
         ("device", VDevice cpu);
         ("experiment_dir", VStr "/tmp/logs/run1");
         ("writer", VRef 10%positive)]
  ∧ heap world_configured !! 10%positive = Some (OWriter "/tmp/logs/run1" []).
Proof.
  split; [|split].
  - vm_compute. reflexivity.
  - vm_cast_no_check (eq_refl (attrs_at world_configured 9%positive)).
  - vm_compute. reflexivity.
Qed.

Example commands_of_the_test :
  COMMANDS (H := posixpath) (posixpath_abspath "/repo") posixpath_dirname
    "tests/test_examples_isaac_orbit.py"
  = ["orbit -p /repo/docs/source/examples/isaacorbit/ppo_cartpole.py --headless --num_envs 64"].
Proof. vm_compute. reflexivity. Qed.





Lemma set_mode_no_validation_witness :
  ∃ r w' n evs,
    set_mode (Model0 := two_mode_model) (VRef 9%positive) "anything"
      world_configured = (r, w')
    ∧ trace w' = (trace world_configured ++ evs)%list
    ∧ Forall2
        (is_forward [("policy", VRef 3%positive); ("value", VRef 4%positive)]
           "anything")
        (take n ["policy"; "value"]) evs
    ∧ ([("policy", VRef 3%positive); ("value", VRef 4%positive)] ≠ [] → 0 < n)
    ∧ ((r = Ok VNone ∧ n = List.length ["policy"; "value"])
       ∨ (∃ e lm m, r = Raise e
            ∧ last evs = Some (CallSetMode lm "anything")
            ∧ heap w' !! lm = Some (OModel m)
            ∧ model_set_mode (Model := two_mode_model) m "anything" = Raise e))
    ∧ ((∀ m, ∃ m', model_set_mode (Model := two_mode_model) m "anything" = Ok m') →
       r = Ok VNone ∧ n = List.length ["policy"; "value"]).
Proof.
  apply (set_mode_no_validation (Model0 := two_mode_model)
           9%positive "Agent" (attrs_at world_configured 9%positive) 2%positive
           [("policy", VRef 3%positive); ("value", VRef 4%positive)] "anything"
           world_configured).
  - vm_compute; reflexivity.
  - vm_compute; reflexivity.
  - vm_compute; reflexivity.
  - repeat constructor; eexists _, _; (split; [reflexivity|vm_compute; reflexivity]).
Defined.

(** C10 as the specification words it fails with the two-mode models and
    the empty string: the model under ["value"] never gets it, for the
    model under ["policy"] raised on it. *)
Lemma set_mode_misses_a_model :
  ¬ forwards_to_every_model (Model0 := two_mode_model) 9%positive ""
      world_configured.
Proof.
  intros Hfw.
  assert (CallSetMode 4%positive ""
          ∈ trace (set_mode (Model0 := two_mode_model) (VRef 9%positive) ""
                     world_configured).2) as Hin.
  { apply (Hfw "Agent" (attrs_at world_configured 9%positive) 2%positive
             [("policy", VRef 3%positive); ("value", VRef 4%positive)] "value").
    - vm_compute; reflexivity.
    - vm_compute; reflexivity.
    - vm_compute; reflexivity.
    - apply list_elem_of_further, list_elem_of_here. }
  vm_compute in Hin. apply list_elem_of_singleton in Hin. discriminate Hin.
Qed.

(** With the two-mode models, a string that is no mode gets to the first
    model, which raises; [set_mode] passes that exception on. *)
Example set_mode_anything :
  let r := set_mode (Model0 := two_mode_model) (VRef 9%positive) "anything"
             world_configured in
  r.1 = Raise (CollaboratorError "ValueError")
  ∧ trace r.2 = [CallSetMode 3%positive "anything"].
Proof. split; vm_compute; reflexivity. Qed.

Example set_mode_train :
  let r := set_mode (Model0 := two_mode_model) (VRef 9%positive) "train"
             world_configured in
  r.1 = Ok VNone
  ∧ trace r.2 = [CallSetMode 3%positive "train"; CallSetMode 4%positive "train"]
  ∧ heap r.2 !! 3%positive = Some (OModel "train")
  ∧ heap r.2 !! 4%positive = Some (OModel "train").
Proof. repeat apply conj; vm_compute; reflexivity. Qed.

Lemma construction_wraps_arguments_witness :
  ∃ l attrs,
    VRef 9%positive = VRef l
    ∧ heap world0 !! l = None
    ∧ heap world_default !! l = Some (OInstance "Agent" attrs)
    ∧ attrs !! "env" = Some (VRef 5%positive)
    ∧ attrs !! "networks" = Some (VRef 2%positive)
    ∧ attrs !! "memory" = Some (default VNone None)
    ∧ attrs !! "cfg" = Some (default (VRef (default_cfg world0)) None)
    ∧ ∀ l' o, heap world0 !! l' = Some o → heap world_default !! l' = Some o.
Proof.
  apply (construction_wraps_arguments (H := posixpath) "Agent"
           (VRef 5%positive) (VRef 2%positive) None None world0).
  vm_compute. reflexivity.
Defined.

(** C5 as the specification words it fails: the agent made by
    [Agent(env, networks)] is more than the aggregate of its arguments, it
    has a [device] as well. *)
Lemma construction_not_plain_aggregation :
  ¬ plain_aggregation (H := posixpath) "Agent" (VRef 5%positive) (VRef 2%positive)
      None None world0.
Proof.
  intros Hplain.
  destruct (Hplain (VRef 9%positive) world_default) as (l & [= <-] & Hheap).
  { vm_compute. reflexivity. }
  apply (f_equal (λ o, match o with
                       | Some (OInstance _ attrs) => attrs !! "device"
                       | _ => None
                       end)) in Hheap.
  vm_compute in Hheap. discriminate Hheap.
Qed.

Lemma construction_sets_seven_fields_witness :
  ∃ l wl items cwd a b dir,
    VRef 9%positive = VRef l
    ∧ as_dict (heap world0) (default (VRef (default_cfg world0)) (Some (VRef 7%positive)))
      = Some items
    ∧ getcwd world0 = Ok cwd
    ∧ default (VStr (posixpath_join cwd "runs")) (dict_lookup items "log_dir")
      = VStr a
    ∧ default (VStr (now_strftime world0 ++ "_" ++ "Agent"))
        (dict_lookup items "experiment_name") = VStr b
    ∧ (posixpath_join a b ≠ "" → dir = posixpath_join a b)
    ∧ (posixpath_join a b = "" →
       dir = posixpath_join "runs"
               (now_strftime_writer world0 ++ "_" ++ gethostname world0))
    ∧ heap world0 !! l = None ∧ heap world0 !! wl = None ∧ l ≠ wl
    ∧ heap world_configured
      = <[l := OInstance "Agent"
                 (<["writer" := VRef wl]>
                    (<["experiment_dir" := VStr (posixpath_join a b)]>
                       (<["device" := init_device items world0]>
                          (plain_aggregate (VRef 5%positive) (VRef 2%positive)
                             (default VNone (Some (VRef 6%positive)))
                             (default (VRef (default_cfg world0))
                                (Some (VRef 7%positive)))))))]>
          (<[wl := OWriter dir []]> (heap world0))
    ∧ trace world_configured = trace world0
    ∧ same_env world0 world_configured.
Proof.
  apply (construction_sets_seven_fields (H := posixpath) "Agent"
           (VRef 5%positive) (VRef 2%positive)
           (Some (VRef 6%positive)) (Some (VRef 7%positive)) world0).
  vm_compute. reflexivity.
Defined.

Lemma construction_device_witness :
  (∃ attrs,
     heap world_configured !! 9%positive = Some (OInstance "Agent" attrs)
     ∧ attrs !! "device" = Some (VDevice cpu))
  ∧ (∃ attrs,
       heap world_on_device !! 9%positive = Some (OInstance "Agent" attrs)
       ∧ attrs !! "device" = Some (VStr "cuda:1")).
Proof.
  split.
  - destruct (construction_device (H := posixpath) "Agent"
                (VRef 5%positive) (VRef 2%positive)
                (Some (VRef 6%positive)) (Some (VRef 7%positive)) world0
                9%positive world_configured
                [("device", VNone); ("log_dir", VStr "/tmp/logs");
                 ("experiment_name", VStr "run1")])
      as (attrs & Hattrs & Hnone & _).
    + vm_compute. reflexivity.
    + vm_compute. reflexivity.
    + exists attrs. split; [exact Hattrs|]. apply Hnone. right. reflexivity.
  - destruct (construction_device (H := posixpath) "Agent"
                (VRef 5%positive) (VRef 2%positive)
                (Some (VRef 6%positive)) (Some (VRef 8%positive)) world0
                9%positive world_on_device [("device", VStr "cuda:1")])
      as (attrs & Hattrs & _ & Hsome).
    + vm_compute. reflexivity.
    + vm_compute. reflexivity.
    + exists attrs. split; [exact Hattrs|]. apply Hsome; [reflexivity|discriminate].
Defined.

Lemma construction_experiment_dir_witness :
  ∃ cwd a b attrs wl dir,
    getcwd world0 = Ok cwd
    ∧ default (VStr (posixpath_join cwd "runs"))
        (dict_lookup [("device", VNone); ("log_dir", VStr "/tmp/logs");
                      ("experiment_name", VStr "run1")] "log_dir")
      = VStr a
    ∧ VStr "run1" = VStr b
    ∧ heap world_configured !! 9%positive = Some (OInstance "Agent" attrs)
    ∧ attrs !! "experiment_dir" = Some (VStr (posixpath_join a b))
    ∧ attrs !! "writer" = Some (VRef wl)
    ∧ heap world0 !! wl = None
    ∧ heap world_configured !! wl = Some (OWriter dir [])
    ∧ (posixpath_join a b ≠ "" → dir = posixpath_join a b)
    ∧ (posixpath_join a b = "" →
       dir = posixpath_join "runs"
               (now_strftime_writer world0 ++ "_" ++ gethostname world0)).
Proof.
  apply (construction_experiment_dir (H := posixpath) "Agent"
           (VRef 5%positive) (VRef 2%positive)
           (Some (VRef 6%positive)) (Some (VRef 7%positive)) world0).
  - vm_compute. reflexivity.
  - vm_compute. reflexivity.
  - vm_compute. reflexivity.
Defined.

(** A state with one more configuration, which has the empty string both
    as its ["log_dir"] and as its ["experiment_name"], and the state after
    [Agent(env, networks, cfg=cfg)] for it. *)
Definition world_blank_cfg : @world string (list Q) Q :=
  Eval vm_compute in
  set_heap (<[9%positive := ODict [("log_dir", VStr "");
                                   ("experiment_name", VStr "")]]> (heap world0))
    world0.

Definition world_blank : @world string (list Q) Q :=
  Eval vm_compute in
  (Agent (H := posixpath) "Agent" (VRef 5%positive) (VRef 2%positive)
     None (Some (VRef 9%positive)) world_blank_cfg).2.

Example blank_construction :
  Agent (H := posixpath) "Agent" (VRef 5%positive) (VRef 2%positive)
    None (Some (VRef 9%positive)) world_blank_cfg
  = (Ok (VRef 10%positive), world_blank)
  ∧ attrs_at world_blank 10%positive !! "experiment_dir" = Some (VStr "")
  ∧ attrs_at world_blank 10%positive !! "writer" = Some (VRef 11%positive)
  ∧ heap world_blank !! 11%positive = Some (OWriter "runs/Mar01_12-00-00_host" []).
Proof. repeat apply conj; vm_compute; reflexivity. Qed.

(** C9 as the specification words it fails for that configuration, which
    supplies both entries: the [experiment_dir] of the agent is the empty
    string, the join of the two, and the writer, given the empty string,
    is over a directory of its own. *)
Lemma construction_writer_elsewhere :
  ¬ writer_over_experiment_dir (H := posixpath) "Agent"
      (VRef 5%positive) (VRef 2%positive) None (Some (VRef 9%positive))
      world_blank_cfg.
Proof.
  intros Hover.
  destruct (Hover 10%positive world_blank)
    as (cls' & attrs & dir & wl & log & Hl & Hdir & Hwr & Hwl).
  { vm_compute. reflexivity. }
  vm_compute in Hl. injection Hl as <- <-.
  vm_compute in Hdir. injection Hdir as <-.
  vm_compute in Hwr. injection Hwr as <-.
  vm_compute in Hwl. discriminate Hwl.
Qed.

(** The test where the simulator is not installed, and where it is and
    the script exits with status 0. *)
Definition no_simulator : test_world :=
  {| import_omni_isaac_kit := Some (ModuleNotFoundError "No module named 'omni'");
     returncode_of := λ _, 0%Z;
     emitted := [] |}.

Definition with_simulator : test_world :=
  {| import_omni_isaac_kit := None;
     returncode_of := λ _, 0%Z;
     emitted := [] |}.

Definition the_command : string :=
  "orbit -p /repo/docs/source/examples/isaacorbit/ppo_cartpole.py --headless --num_envs 64".

Lemma the_command_listed :
  the_command
  ∈ COMMANDS (H := posixpath) (posixpath_abspath "/repo") posixpath_dirname
      "tests/test_examples_isaac_orbit.py".
Proof. vm_compute. apply list_elem_of_here. Qed.

Lemma test_scripts_runs_or_skips_witness :
  ((test_scripts the_command with_simulator).1 = Ok VNone
   ∧ emitted (test_scripts the_command with_simulator).2
     = [SubprocessRun the_command true true])
  ∧ ((test_scripts the_command no_simulator).1 = Ok VNone
     ∧ emitted (test_scripts the_command no_simulator).2
       = [WarningsWarn (skip_message "No module named 'omni'")]).
Proof.
  split.
  - apply (proj1 (test_scripts_runs_or_skips (H := posixpath)
                    (posixpath_abspath "/repo") posixpath_dirname
                    "tests/test_examples_isaac_orbit.py"
                    the_command with_simulator the_command_listed)).
    reflexivity.
  - apply (proj2 (test_scripts_runs_or_skips (H := posixpath)
                    (posixpath_abspath "/repo") posixpath_dirname
                    "tests/test_examples_isaac_orbit.py"
                    the_command no_simulator the_command_listed)
             (ModuleNotFoundError "No module named 'omni'")).
    + reflexivity.
    + reflexivity.
Defined.

Example test_scripts_skips :
  test_scripts the_command no_simulator
  = (Ok VNone,
     {| import_omni_isaac_kit := import_omni_isaac_kit no_simulator;
        returncode_of := returncode_of no_simulator;
        emitted := [WarningsWarn (skip_message "No module named 'omni'")] |}).
Proof. reflexivity. Qed.

Example test_scripts_fails_on_exit_status :
  test_scripts the_command
    {| import_omni_isaac_kit := None; returncode_of := λ _, 1%Z; emitted := [] |}
  = (Raise (CalledProcessError 1 the_command),
     {| import_omni_isaac_kit := None; returncode_of := λ _, 1%Z;
        emitted := [SubprocessRun the_command true true] |}).
Proof. reflexivity. Qed.

(** * More of the model at work *)

#[local] Existing Instances py_ret py_bind.

(** A [repr] and a [str] for objects, by their addresses. *)
Definition address_repr (h : gmap loc (@object string (list Q) Q))
    (v : value) : string :=
  match v with
  | VRef l => "<Agent object at " ++ pretty (Z.pos l) ++ ">"
  | _ => "None"
  end.

Definition address_str (h : gmap loc (@object string (list Q) Q))
    (l : loc) : string :=
  "<object at " ++ pretty (Z.pos l) ++ ">".

(** A state with a configuration that has a dict among its values, and one
    that has [None] as its ["log_dir"]. *)
Definition world1 : @world string (list Q) Q :=
  {| heap := {[ 1%positive := ODict [];
                2%positive := ODict [("policy", VRef 3%positive)];
                3%positive := OModel "init";
                4%positive := OEnv;
                5%positive := ODict [("name", VStr "adam"); ("steps", VInt 5)];
                6%positive := ODict [("experiment_name", VStr "run1");
                                     ("gamma", VInt 99);
                                     ("optimizer", VRef 5%positive)];
                7%positive := ODict [("log_dir", VNone)] ]};
     trace := [];
     cuda_is_available := true;
     getcwd := Ok "/home/user";
     now_strftime := "22-03-01_12-00-00";
     default_cfg := 1%positive;
     now_strftime_writer := "Mar01_12-00-00";
     gethostname := "host";
     open_log_dir := λ _, None |}.

Definition world_nested : @world string (list Q) Q :=
  Eval vm_compute in
  (Agent (H := posixpath) "PPO" (VRef 4%positive) (VRef 2%positive)
     None (Some (VRef 6%positive)) world1).2.

Definition nested_cfg : dict :=
  [("experiment_name", VStr "run1"); ("gamma", VInt 99);
   ("optimizer", VRef 5%positive)].

Example str_of_nested :
  __str__ address_repr address_str (VRef 8%positive) world_nested
  = (Ok ("Agent: <Agent object at 8>" ++ newline
         ++ "  |-- experiment_name: run1" ++ newline
         ++ "  |-- gamma: 99" ++ newline
         ++ "  |-- optimizer" ++ newline
         ++ "  |     |-- name: adam" ++ newline
         ++ "  |     |-- steps: 5"), world_nested).
Proof. vm_compute. reflexivity. Qed.

Lemma str_agent_witness :
  __str__ address_repr address_str (VRef 8%positive) world_nested
  = (Ok ("Agent: " ++ address_repr (heap world_nested) (VRef 8%positive)
         ++ flatten (str_entry address_str (heap world_nested) <$> nested_cfg)),
     world_nested).
Proof.
  apply (str_agent address_repr address_str 8%positive "PPO"
           (attrs_at world_nested 8%positive) (VRef 6%positive) nested_cfg
           world_nested);
    vm_compute; reflexivity.
Defined.

Lemma str_agent_lines_witness :
  ∃ text,
    __str__ address_repr address_str (VRef 8%positive) world_nested
    = (Ok text, world_nested)
    ∧ count_newlines text
      = sum_list (entry_lines (heap world_nested) <$> nested_cfg).
Proof.
  apply (str_agent_lines address_repr address_str 8%positive "PPO"
           (attrs_at world_nested 8%positive) (VRef 6%positive) nested_cfg
           world_nested).
  - vm_compute; reflexivity.
  - vm_compute; reflexivity.
  - vm_compute; reflexivity.
  - vm_compute; reflexivity.
  - repeat (apply Forall_cons; split); try apply Forall_nil;
      try (vm_compute; reflexivity).
    all: split; [vm_compute; reflexivity|].
    all: try (vm_compute; reflexivity).
    change (as_dict (heap world_nested) (VRef 5%positive))
      with (Some [("name", VStr "adam"); ("steps", VInt 5)]).
    repeat (apply Forall_cons; split); try apply Forall_nil;
      try (vm_compute; reflexivity).
    all: split; vm_compute; reflexivity.
Defined.

Lemma str_of_constructed_witness :
  ∃ items,
    as_dict (heap world1) (default (VRef (default_cfg world1)) (Some (VRef 6%positive)))
    = Some items
    ∧ __str__ address_repr address_str (VRef 8%positive) world_nested
      = (Ok ("Agent: " ++ address_repr (heap world_nested) (VRef 8%positive)
             ++ flatten (str_entry address_str (heap world_nested) <$> items)),
         world_nested).
Proof.
  apply (str_of_constructed (H := posixpath) address_repr address_str "PPO"
           (VRef 4%positive) (VRef 2%positive) None (Some (VRef 6%positive))
           world1).
  vm_compute. reflexivity.
Defined.

Lemma record_transition_writes_prefix_witness :
  ∃ w',
    record_transition (Torch0 := rational_torch) (VRef 9%positive)
      [] [] [1#2; 3#1; -1#1]%Q [] [] 3 10 world_configured = (Ok VNone, w')
    ∧ heap w' !! 10%positive
      = Some (OWriter "/tmp/logs/run1"
                ([] ++ reward_scalars (3#1)%Q (-1#1)%Q (5#6)%Q 3))
    ∧ (∀ l', l' ≠ 10%positive → heap w' !! l' = heap world_configured !! l')
    ∧ trace w' = trace world_configured
    ∧ same_env world_configured w'.
Proof.
  apply (record_transition_writes_prefix (Torch0 := rational_torch)
           9%positive "Agent" (attrs_at world_configured 9%positive)
           10%positive "/tmp/logs/run1" [] [] [] [1#2; 3#1; -1#1]%Q [] [] 3 10
           world_configured);
    vm_compute; reflexivity.
Defined.

(** On rewards without an element, the first reduction of the rational
    tensors raises, and nothing is written. *)
Example record_transition_no_rewards :
  record_transition (Torch0 := rational_torch) (VRef 9%positive)
    [] [] [] [] [] 3 10 world_configured
  = (Raise (CollaboratorError "RuntimeError"), world_configured).
Proof. vm_compute. reflexivity. Qed.

(** At a [timestep] that no record can have as its step, the writer
    raises [ValueError] on the first record, and nothing is written. *)
Example record_transition_step_too_large :
  record_transition (Torch0 := rational_torch) (VRef 9%positive)
    [] [] [1#2; 3#1; -1#1]%Q [] [] (2 ^ 63) 10 world_configured
  = (Raise ValueError, world_configured).
Proof. vm_compute. reflexivity. Qed.

Lemma first_record_transition_witness :
  ∃ attrs wl dir wdir w2,
    heap world_configured !! 9%positive = Some (OInstance "Agent" attrs)
    ∧ attrs !! "writer" = Some (VRef wl)
    ∧ attrs !! "experiment_dir" = Some (VStr dir)
    ∧ record_transition (Torch0 := rational_torch) (VRef 9%positive)
        [] [] [1#2; 3#1; -1#1]%Q [] [] 0 10 world_configured = (Ok VNone, w2)
    ∧ heap w2 !! wl
      = Some (OWriter wdir (reward_scalars (3#1)%Q (-1#1)%Q (5#6)%Q 0))
    ∧ (dir ≠ "" → wdir = dir).
Proof.
  apply (first_record_transition (Torch0 := rational_torch) (H := posixpath)
           "Agent" (VRef 5%positive) (VRef 2%positive)
           (Some (VRef 6%positive)) (Some (VRef 7%positive)) world0
           9%positive world_configured [] [] [1#2; 3#1; -1#1]%Q [] [] 0 10
           [3#1]%Q [-1#1]%Q [5#6]%Q);
    first [unfold int64; lia | vm_compute; reflexivity].
Defined.

Lemma record_transition_without_writer_witness :
  record_transition (Torch0 := rational_torch) (VRef 5%positive)
    [] [] [1#2]%Q [] [] 3 10 world0
  = (Raise AttributeError, world0).
Proof.
  apply (record_transition_without_writer (Torch0 := rational_torch)).
  intros (l & cls & attrs & wl & d & log & [= <-] & Hl & _).
  vm_compute in Hl. discriminate Hl.
Defined.

Lemma construction_makes_whole_agent_witness :
  agent_inv (heap world_configured) 9%positive.
Proof.
  apply (construction_makes_whole_agent (H := posixpath) "Agent"
           (VRef 5%positive) (VRef 2%positive)
           (Some (VRef 6%positive)) (Some (VRef 7%positive)) world0).
  - vm_compute. reflexivity.
  - vm_compute. discriminate.
Defined.

Lemma world_nested_whole : agent_inv (heap world_nested) 8%positive.
Proof.
  exists "PPO", (attrs_at world_nested 8%positive), (VRef 6%positive), nested_cfg,
    (VDevice cuda), "/home/user/runs/run1", 9%positive, [].
  split_and!; try (vm_compute; reflexivity); try (eexists; vm_compute; reflexivity).
  discriminate.
Qed.

Lemma whole_agent_stays_whole_witness :
  agent_inv
    (heap (act (VRef 8%positive) ([] : list Q) false None None world_nested).2)
    8%positive
  ∧ agent_inv
      (heap (record_transition (Torch0 := rational_torch) (VRef 8%positive)
               [] [] [1#2]%Q [] [] 3 10 world_nested).2) 8%positive
  ∧ agent_inv
      (heap (set_mode (Model0 := two_mode_model) (VRef 8%positive) "anything"
               world_nested).2) 8%positive
  ∧ agent_inv (heap (pre_interaction (VRef 8%positive) 3 10 world_nested).2) 8%positive
  ∧ agent_inv (heap (post_interaction (VRef 8%positive) 3 10 world_nested).2) 8%positive
  ∧ agent_inv
      (heap (__str__ address_repr address_str (VRef 8%positive) world_nested).2)
      8%positive
  ∧ agent_inv
      (heap (Agent (H := posixpath) "PPO" (VRef 4%positive) (VRef 2%positive)
               None (Some (VRef 7%positive)) world_nested).2) 8%positive.
Proof.
  apply (whole_agent_stays_whole (Model0 := two_mode_model)
           (Torch0 := rational_torch) (H := posixpath) address_repr address_str).
  apply world_nested_whole.
Defined.


(** The state after [Agent(env, networks)] for a class [PPO] that
    inherits from [Agent]. *)
Definition world_ppo : @world string (list Q) Q :=
  Eval vm_compute in
  (Agent (H := posixpath) "PPO" (VRef 4%positive) (VRef 2%positive) None None
     world1).2.

Lemma construction_default_experiment_dir_witness :
  ∃ cwd attrs wl wdir,
    getcwd world1 = Ok cwd
    ∧ heap world_ppo !! 8%positive = Some (OInstance "PPO" attrs)
    ∧ attrs !! "experiment_dir"
      = Some (VStr (posixpath_join (posixpath_join cwd "runs")
                      (now_strftime world1 ++ "_" ++ "PPO")))
    ∧ attrs !! "writer" = Some (VRef wl)
    ∧ heap world_ppo !! wl = Some (OWriter wdir [])
    ∧ (posixpath_join (posixpath_join cwd "runs")
         (now_strftime world1 ++ "_" ++ "PPO") ≠ ""
       → wdir = posixpath_join (posixpath_join cwd "runs")
                  (now_strftime world1 ++ "_" ++ "PPO")).
Proof.
  apply (construction_default_experiment_dir (H := posixpath) "PPO"
           (VRef 4%positive) (VRef 2%positive) None None world1 []).
  - reflexivity.
  - reflexivity.
  - reflexivity.
  - vm_compute. reflexivity.
Defined.

Example default_experiment_dir_of_ppo :
  attrs_at world_ppo 8%positive !! "experiment_dir"
  = Some (VStr "/home/user/runs/22-03-01_12-00-00_PPO")
  ∧ heap world_ppo !! 9%positive
    = Some (OWriter "/home/user/runs/22-03-01_12-00-00_PPO" []).
Proof. split; vm_compute; reflexivity. Qed.

(** Where the directory cannot be made, the writer raises [OSError], and
    so does the construction. *)
Example construction_without_directory :
  (Agent (H := posixpath) "PPO" (VRef 4%positive) (VRef 2%positive) None None
     {| heap := heap world1; trace := []; cuda_is_available := true;
        getcwd := Ok "/home/user"; now_strftime := "22-03-01_12-00-00";
        default_cfg := 1%positive; now_strftime_writer := "Mar01_12-00-00";
        gethostname := "host";
        open_log_dir := λ _, Some (OSError "Permission denied") |}).1
  = Raise (OSError "Permission denied").
Proof. vm_compute. reflexivity. Qed.

Definition world_second : @world string (list Q) Q :=
  Eval vm_compute in
  (Agent (H := posixpath) "PPO" (VRef 5%positive) (VRef 2%positive) None None
     world_default).2.

Lemma default_cfg_is_shared_witness :
  ∃ attrs1 attrs2 wl1 wl2,
    heap world_second !! 9%positive = Some (OInstance "Agent" attrs1)
    ∧ heap world_second !! 11%positive = Some (OInstance "PPO" attrs2)
    ∧ 9%positive ≠ 11%positive
    ∧ attrs1 !! "cfg" = Some (VRef (default_cfg world0))
    ∧ attrs2 !! "cfg" = Some (VRef (default_cfg world0))
    ∧ attrs1 !! "writer" = Some (VRef wl1)
    ∧ attrs2 !! "writer" = Some (VRef wl2)
    ∧ wl1 ≠ wl2.
Proof.
  apply (default_cfg_is_shared (H := posixpath) "Agent" "PPO"
           (VRef 5%positive) (VRef 2%positive) (VRef 5%positive) (VRef 2%positive)
           None None world0 9%positive world_default 11%positive world_second);
    vm_compute; reflexivity.
Defined.

Lemma set_mode_twice_witness :
  ∃ w' evs1 evs2,
    (set_mode (Model0 := two_mode_model) (VRef 9%positive) "train" ;;
     set_mode (Model0 := two_mode_model) (VRef 9%positive) "eval") world_configured
    = (Ok VNone, w')
    ∧ trace w' = (trace world_configured ++ evs1 ++ evs2)%list
    ∧ Forall2
        (is_forward [("policy", VRef 3%positive); ("value", VRef 4%positive)] "train")
        ["policy"; "value"] evs1
    ∧ Forall2
        (is_forward [("policy", VRef 3%positive); ("value", VRef 4%positive)] "eval")
        ["policy"; "value"] evs2.
Proof.
  apply (set_mode_twice (Model0 := two_mode_model)
           9%positive "Agent" (attrs_at world_configured 9%positive) 2%positive
           [("policy", VRef 3%positive); ("value", VRef 4%positive)] "train" "eval"
           world_configured).
  - vm_compute; reflexivity.
  - vm_compute; reflexivity.
  - vm_compute; reflexivity.
  - repeat constructor; eexists _, _; (split; [reflexivity|vm_compute; reflexivity]).
  - intros m. eexists. vm_compute. reflexivity.
  - intros m. eexists. vm_compute. reflexivity.
Defined.

#[local] Existing Instance rational_torch.

(** The state after two calls of [record_transition] on the configured
    agent. *)
Definition world_two_calls : @world string (list Q) Q :=
  Eval vm_compute in
  ((record_transition (Torch0 := rational_torch) (VRef 9%positive)
      [] [] [1#2; 3#1; -1#1]%Q [] [] 0 10 ;;
    record_transition (Torch0 := rational_torch) (VRef 9%positive)
      [] [] [2#1]%Q [] [] 1 10) world_configured).2.

Lemma record_transition_twice_witness :
  ∃ mx1 mn1 av1 mx2 mn2 av2,
    reduced torch_max [1#2; 3#1; -1#1]%Q = Ok mx1
    ∧ reduced torch_min [1#2; 3#1; -1#1]%Q = Ok mn1
    ∧ reduced torch_mean [1#2; 3#1; -1#1]%Q = Ok av1
    ∧ reduced torch_max [2#1]%Q = Ok mx2
    ∧ reduced torch_min [2#1]%Q = Ok mn2
    ∧ reduced torch_mean [2#1]%Q = Ok av2
    ∧ int64 0 ∧ int64 1
    ∧ VNone = VNone
    ∧ heap world_two_calls !! 10%positive
      = Some (OWriter "/tmp/logs/run1"
                ([] ++ reward_scalars mx1 mn1 av1 0
                    ++ reward_scalars mx2 mn2 av2 1)).
Proof.
  apply (record_transition_twice (Torch0 := rational_torch)
           9%positive "Agent" (attrs_at world_configured 9%positive)
           10%positive "/tmp/logs/run1" []
           [] [] [1#2; 3#1; -1#1]%Q [] [] [] [] [2#1]%Q [] [] 0 1 10
           world_configured VNone world_two_calls);
    vm_compute; reflexivity.
Defined.

Example two_calls_in_order :
  heap world_two_calls !! 10%positive
  = Some (OWriter "/tmp/logs/run1"
            [("Instantaneous reward/max", (3#1)%Q, 0%Z);
             ("Instantaneous reward/min", (-1#1)%Q, 0%Z);
             ("Instantaneous reward/mean", (5#6)%Q, 0%Z);
             ("Instantaneous reward/max", (2#1)%Q, 1%Z);
             ("Instantaneous reward/min", (2#1)%Q, 1%Z);
             ("Instantaneous reward/mean", (2#1)%Q, 1%Z)]).
Proof. vm_compute. reflexivity. Qed.
